(** * A shallow embedding of [src/data_loader.py]

    The module downloads the OpenDART corporation-code directory
    ([get_listed_corp_codes]), enriches it through a detail lookup
    ([get_kospi_company_info]) and persists tables with [save_df_to_csv].

    The model keeps the structure of the Python code:
    - a Python [str] is a list of code points ([pystr]), so [len] is
      [List.length];
    - Python exceptions are the inductive [exn]; [except C] is a boolean
      selector on [exn];
    - the effects (file system, console output, [time.sleep], the network
      answer of [requests.get]) are threaded through a state and exception
      monad [M];
    - the third-party libraries whose behaviour is a pure function of bytes
      (zipfile's archive reader, ElementTree's parser and pandas' CSV
      serialisation) are Section variables.

    Note on the source: line 147 of [data_loader.py] lacks the comma after
    [info.get('ir_url')], which makes the module a syntax error as written.
    The model of [get_kospi_company_info] reads the dictionary literal with
    that comma, i.e. as the nine-entry record the code evidently builds. *)

From Stdlib Require Import List String Ascii NArith ZArith Bool Lia.
Import ListNotations.
Open Scope list_scope.

(* ------------------------------------------------------------------ *)
(** ** Python strings and bytes *)

Definition pystr := list N.

(** Literal helper: an ASCII Rocq string as a list of code points. *)
Fixpoint str (s : string) : pystr :=
  match s with
  | EmptyString => []
  | String c s' => N_of_ascii c :: str s'
  end.

Arguments str : simpl never.

Definition pystr_eqb (a b : pystr) : bool :=
  if list_eq_dec N.eq_dec a b then true else false.

Lemma pystr_eqb_eq a b : pystr_eqb a b = true <-> a = b.
Proof. unfold pystr_eqb; destruct (list_eq_dec N.eq_dec a b); split; congruence. Qed.

Arguments pystr_eqb : simpl never.

Lemma pystr_eqb_refl a : pystr_eqb a a = true.
Proof. apply pystr_eqb_eq; reflexivity. Qed.

(** A Python value that is either [None] or a [str]. *)
Definition pyval := option pystr.

(** Truthiness of an [Optional[str]]: [None] and [''] are falsy. *)
Definition pyval_truthy (v : pyval) : bool :=
  match v with Some (_ :: _) => true | _ => false end.

Definition pyval_eqb (a b : pyval) : bool :=
  match a, b with
  | None, None => true
  | Some x, Some y => pystr_eqb x y
  | _, _ => false
  end.

Definition bytes := list Byte.byte.

(* ------------------------------------------------------------------ *)
(** ** [posixpath]: split, dirname, join *)

Definition slash : N := 47.

Definition is_slash (c : N) : bool := N.eqb c slash.

Definition all_slashes (p : pystr) : bool := forallb is_slash p.

Fixpoint drop_slashes (r : pystr) : pystr :=
  match r with
  | c :: r' => if is_slash c then drop_slashes r' else r
  | [] => []
  end.

(** [p.rstrip('/')] *)
Definition rstrip_slashes (p : pystr) : pystr := rev (drop_slashes (rev p)).

(** Splits a reversed path at its first slash: the reversed tail, and the
    reversed head (which starts with that slash). *)
Fixpoint span_tail (r : pystr) : pystr * pystr :=
  match r with
  | [] => ([], [])
  | c :: r' =>
      if is_slash c then ([], r)
      else let (t, h) := span_tail r' in (c :: t, h)
  end.

(** [posixpath.split]: [i = p.rfind('/') + 1; head, tail = p[:i], p[i:]];
    trailing slashes are stripped from [head] unless it is all slashes. *)
Definition path_split (p : pystr) : pystr * pystr :=
  let (tr, hr) := span_tail (rev p) in
  let head := rev hr in
  let tail := rev tr in
  (if negb (all_slashes head) then rstrip_slashes head else head, tail).

Definition dirname (p : pystr) : pystr := fst (path_split p).

Definition ends_with_slash (p : pystr) : bool :=
  match rev p with c :: _ => is_slash c | [] => false end.

(** [posixpath.join(a, b)] for two components. *)
Definition path_join (a b : pystr) : pystr :=
  match b with
  | c :: _ => if is_slash c then b
              else match a with
                   | [] => b
                   | _ => if ends_with_slash a then a ++ b else a ++ [slash] ++ b
                   end
  | [] => match a with
          | [] => b
          | _ => if ends_with_slash a then a ++ b else a ++ [slash] ++ b
          end
  end.

Arguments path_join : simpl never.

(** The key under which the operating system knows a directory:
    trailing slashes do not name another directory. *)
Definition norm_dir (p : pystr) : pystr :=
  if all_slashes p then p else rstrip_slashes p.

(* ------------------------------------------------------------------ *)
(** ** Exceptions *)

Inductive req_exn :=
| ConnectionError
| Timeout
| HTTPError (status : Z)
| ChunkedEncodingError.

Inductive exn :=
| RequestException (r : req_exn)   (** [requests.exceptions.RequestException] and subclasses *)
| BadZipFile
| KeyError (k : pystr)
| ParseError                       (** [xml.etree.ElementTree.ParseError] *)
| FileNotFoundError (p : pystr)
| FileExistsError (p : pystr)
| NotADirectoryError (p : pystr)
| IsADirectoryError (p : pystr)
| PermissionError (p : pystr)
| ClientError (what : pystr)       (** any other [Exception] of a client library *)
| ValueError (what : pystr).       (** [ValueError], raised at import *)

(** [except requests.exceptions.RequestException] *)
Definition is_request_exception (e : exn) : bool :=
  match e with RequestException _ => true | _ => false end.

(** [except zipfile.BadZipFile] *)
Definition is_bad_zip (e : exn) : bool :=
  match e with BadZipFile => true | _ => false end.

(** [except ET.ParseError] *)
Definition is_parse_error (e : exn) : bool :=
  match e with ParseError => true | _ => false end.

(** [except OSError]; [RequestException] derives from [IOError]. *)
Definition is_os_error (e : exn) : bool :=
  match e with
  | RequestException _ | FileNotFoundError _ | FileExistsError _
  | NotADirectoryError _ | IsADirectoryError _ | PermissionError _ => true
  | _ => false
  end.

Definition is_file_exists (e : exn) : bool :=
  match e with FileExistsError _ => true | _ => false end.

(** [except Exception]: every exception of the model. *)
Definition is_exception (e : exn) : bool := true.

(* ------------------------------------------------------------------ *)
(** ** Console output

    Each [print] call of the module, with the values it interpolates. *)

Inductive msg :=
| MFetchingCodes                          (** "Fetching all corporation codes ..." *)
| MFetchCodesError (e : exn)              (** "Error fetching corporation codes: {e}" *)
| MExtracted (p : pystr)                  (** "CORPCODE.xml extracted to {xml_path}" *)
| MBadZip                                 (** "Error: Downloaded file is not a valid zip file..." *)
| MParseError (e : exn)                   (** "Error parsing CORPCODE.xml: {e}" *)
| MSavedCodes (n : nat) (p : pystr)       (** "Saved {n} listed corporation codes to {p}" *)
| MFetchingInfo                           (** "Fetching detailed company info ..." *)
| MFailedInfo (name code : pyval) (e : exn)
                                          (** "Failed to fetch company info for {corp_name} ({corp_code}): {e}" *)
| MSavedInfo (n : nat) (p : pystr)        (** "Saved {n} KOSPI company details to {p}" *)
| MSaveError (p : pystr) (e : exn).       (** "Error saving DataFrame to CSV {file_path}: {e}" *)

(* ------------------------------------------------------------------ *)
(** ** The world: file system, console, clock and network *)

(** The body of a [requests.get(url, stream=True)] call: either the
    request itself fails, or a response arrives with a status code and a
    body streamed in chunks, the stream possibly breaking after them. *)
Inductive response :=
| NetFail (e : req_exn)
| Resp (status_code : Z) (chunks : list bytes) (stream_error : option req_exn).

Record fsys := {
  dirs : list pystr;               (** existing directories (normalised) *)
  files : list (pystr * bytes);    (** regular files and their contents *)
  readonly : list pystr            (** directories in which nothing may be created;
                                       [[]] stands for the working directory *)
}.

Record world := {
  fs : fsys;
  stdout : list msg;
  sleeps : list N;                 (** durations of [time.sleep] calls, in ms *)
  http : pystr -> response         (** what the network answers for a URL *)
}.

Definition set_fs (w : world) (f : fsys) : world :=
  {| fs := f; stdout := stdout w; sleeps := sleeps w; http := http w |}.

(* ------------------------------------------------------------------ *)
(** ** The state and exception monad *)

Inductive outcome (A : Type) :=
| Ret (a : A)
| Raise (e : exn).
Arguments Ret {A} a.
Arguments Raise {A} e.

Definition M (A : Type) := world -> outcome A * world.

Definition ret {A} (a : A) : M A := fun w => (Ret a, w).

Definition raise {A} (e : exn) : M A := fun w => (Raise e, w).

Definition bind {A B} (m : M A) (f : A -> M B) : M B :=
  fun w => match m w with
           | (Ret a, w') => f a w'
           | (Raise e, w') => (Raise e, w')
           end.

Notation "x <- m1 ;; m2" := (bind m1 (fun x => m2))
  (at level 61, m1 at next level, right associativity).
Notation "m1 ;; m2" := (bind m1 (fun _ => m2))
  (at level 61, right associativity).

(** [try: m except <sel>: h] *)
Definition catch {A} (m : M A) (sel : exn -> bool) (h : exn -> M A) : M A :=
  fun w => match m w with
           | (Raise e, w') => if sel e then h e w' else (Raise e, w')
           | r => r
           end.

Definition get_world : M world := fun w => (Ret w, w).

Definition print (m : msg) : M unit :=
  fun w => (Ret tt, {| fs := fs w; stdout := stdout w ++ [m];
                       sleeps := sleeps w; http := http w |}).

(** [time.sleep(ms / 1000)] *)
Definition time_sleep (ms : N) : M unit :=
  fun w => (Ret tt, {| fs := fs w; stdout := stdout w;
                       sleeps := sleeps w ++ [ms]; http := http w |}).

(* ------------------------------------------------------------------ *)
(** ** The file system: [os.path], [os.mkdir], [os.makedirs], [open] *)

Definition mem (p : pystr) (l : list pystr) : bool := existsb (pystr_eqb p) l.

Fixpoint file_lookup (p : pystr) (l : list (pystr * bytes)) : option bytes :=
  match l with
  | [] => None
  | (q, b) :: l' => if pystr_eqb p q then Some b else file_lookup p l'
  end.

Fixpoint file_set (p : pystr) (b : bytes) (l : list (pystr * bytes)) : list (pystr * bytes) :=
  match l with
  | [] => [(p, b)]
  | (q, c) :: l' => if pystr_eqb p q then (q, b) :: l' else (q, c) :: file_set p b l'
  end.

(** [os.path.isdir]; [os.path.isdir('')] is [False]. *)
Definition isdir (f : fsys) (p : pystr) : bool :=
  match p with [] => false | _ => mem (norm_dir p) (dirs f) end.

Definition isfile (f : fsys) (p : pystr) : bool :=
  match file_lookup p (files f) with Some _ => true | None => false end.

(** [os.path.exists] *)
Definition path_exists (f : fsys) (p : pystr) : bool := isdir f p || isfile f p.

(** Whether a new entry may be created in the directory [parent] (the
    parent of the path, [[]] being the working directory): [None] if so, or
    the [OSError] raised for the path [p]. *)
Definition parent_check (f : fsys) (parent p : pystr) : option exn :=
  match parent with
  | [] => if mem [] (readonly f) then Some (PermissionError p) else None
  | _ =>
      if negb (isdir f parent) then
        if isfile f parent then Some (NotADirectoryError p) else Some (FileNotFoundError p)
      else if mem (norm_dir parent) (readonly f) then Some (PermissionError p)
      else None
  end.

(** [os.mkdir(p)] *)
Definition mkdir (p : pystr) : M unit :=
  fun w =>
    let f := fs w in
    match p with
    | [] => (Raise (FileNotFoundError p), w)
    | _ =>
      if path_exists f p then (Raise (FileExistsError p), w)
      else match parent_check f (dirname (norm_dir p)) p with
           | Some e => (Raise e, w)
           | None => (Ret tt, set_fs w {| dirs := norm_dir p :: dirs f; files := files f;
                                           readonly := readonly f |})
           end
    end.

Definition cur_dir : pystr := str ".".

(** [os.makedirs(name, exist_ok=True)], following CPython's [os.py]:
<<
    head, tail = path.split(name)
    if not tail:
        head, tail = path.split(head)
    if head and tail and not path.exists(head):
        try:
            makedirs(head, exist_ok=exist_ok)
        except FileExistsError:
            pass
        if tail == curdir:
            return
    try:
        mkdir(name, mode)
    except OSError:
        if not exist_ok or not path.isdir(name):
            raise
>>
    The recursive call is on [head], strictly shorter than [name]; the fuel
    [S (length name)] given by [makedirs] is never exhausted. *)
Fixpoint makedirs_fuel (fuel : nat) (name : pystr) : M unit :=
  let try_mkdir : M unit :=
    catch (mkdir name) is_os_error
      (fun e => w <- get_world ;; if isdir (fs w) name then ret tt else raise e) in
  match fuel with
  | O => try_mkdir
  | S fuel' =>
    let '(head, tail) := path_split name in
    let '(head, tail) := match tail with [] => path_split head | _ => (head, tail) end in
    w <- get_world ;;
    match head, tail with
    | _ :: _, _ :: _ =>
        if negb (path_exists (fs w) head) then
          catch (makedirs_fuel fuel' head) is_file_exists (fun _ => ret tt) ;;
          if pystr_eqb tail cur_dir then ret tt else try_mkdir
        else try_mkdir
    | _, _ => try_mkdir
    end
  end.

Definition makedirs (name : pystr) : M unit := makedirs_fuel (S (List.length name)) name.

(** [open(p, 'wb')]: creates or truncates the file. *)
Definition open_wb (p : pystr) : M unit :=
  fun w =>
    let f := fs w in
    match p with
    | [] => (Raise (FileNotFoundError p), w)
    | _ =>
      if ends_with_slash p || isdir f p then (Raise (IsADirectoryError p), w)
      else match parent_check f (dirname p) p with
           | Some e => (Raise e, w)
           | None => (Ret tt, set_fs w {| dirs := dirs f; files := file_set p [] (files f);
                                           readonly := readonly f |})
           end
    end.

(** [f.write(chunk)] on a file opened by [open_wb]. *)
Definition append_file (p : pystr) (chunk : bytes) : M unit :=
  fun w =>
    let f := fs w in
    let cur := match file_lookup p (files f) with Some b => b | None => [] end in
    (Ret tt, set_fs w {| dirs := dirs f; files := file_set p (cur ++ chunk) (files f);
                         readonly := readonly f |}).

(** Writing a whole file: [open(p, 'wb')] then one [write]. *)
Definition write_file (p : pystr) (b : bytes) : M unit :=
  open_wb p ;; append_file p b.

(** Reading a whole file: [open(p, 'rb').read()]. *)
Definition read_file (p : pystr) : M bytes :=
  fun w =>
    match file_lookup p (files (fs w)) with
    | Some b => (Ret b, w)
    | None => if isdir (fs w) p then (Raise (IsADirectoryError p), w)
              else (Raise (FileNotFoundError p), w)
    end.

(* ------------------------------------------------------------------ *)
(** ** XML elements ([xml.etree.ElementTree]) *)

Set Warnings "-register-all".
Inductive element := Element (tag : pystr) (text : option pystr) (children : list element).

Definition tag_of (e : element) : pystr := let '(Element t _ _) := e in t.
Definition text_of (e : element) : option pystr := let '(Element _ x _) := e in x.
Definition children_of (e : element) : list element := let '(Element _ _ c) := e in c.

(** [e.findall(tag)] for a plain tag: the direct children with that tag. *)
Definition findall (e : element) (tag : pystr) : list element :=
  filter (fun c => pystr_eqb (tag_of c) tag) (children_of e).

(** [e.findtext(tag)]: the text of the first such child ([''] when it has
    none), [None] when there is no such child. *)
Definition findtext (e : element) (tag : pystr) : pyval :=
  match find (fun c => pystr_eqb (tag_of c) tag) (children_of e) with
  | Some c => Some (match text_of c with Some t => t | None => [] end)
  | None => None
  end.

(* ------------------------------------------------------------------ *)
(** ** Tables ([pandas.DataFrame] built from a list of dicts) *)

(** A row: its column names and values, in column order. *)
Definition row := list (pystr * pyval).

(** A [DataFrame] as its list of rows, in order; [pd.DataFrame()] is [[]]. *)
Definition df := list row.

(** [row[key]]: [KeyError] when the column is missing. *)
Definition row_get (r : row) (key : pystr) : M pyval :=
  match find (fun kv => pystr_eqb (fst kv) key) r with
  | Some (_, v) => ret v
  | None => raise (KeyError key)
  end.

(** A detail response of the client: a JSON object of strings. *)
Definition dict := list (pystr * pyval).

(** [d.get(key)] *)
Definition dict_get (d : dict) (key : pystr) : pyval :=
  match find (fun kv => pystr_eqb (fst kv) key) d with
  | Some (_, v) => v
  | None => None
  end.

(** Truthiness of [info] (a [dict] or [None]): an empty dict is falsy. *)
Definition info_truthy (info : option dict) : bool :=
  match info with Some (_ :: _) => true | _ => false end.

(** The outcome of [dart_reader.company(corp_code)]. *)
Inductive lookup :=
| LRaise (e : exn)
| LRet (info : option dict).

Section DataLoader.

(** [zipfile.ZipFile(...)] reading archive bytes: [None] when they are not
    a zip archive; otherwise its members, a member's data being [None] when
    it fails its integrity check (CRC) on extraction. *)
Variable unzip : bytes -> option (list (pystr * option bytes)).

(** [ET.parse] on the bytes of a file: [None] on malformed markup. *)
Variable xml_parse : bytes -> option element.

(** [df.to_csv(index=...)]: the serialised bytes of a table. *)
Variable to_csv_bytes : df -> bool -> bytes.

(** [save_df_to_csv]
<<
    os.makedirs(os.path.dirname(file_path), exist_ok=True)
    try:
        df.to_csv(file_path, index=index)
    except Exception as e:
        print(f"Error saving DataFrame to CSV {file_path}: {e}")
>> *)
Definition save_df_to_csv (d : df) (file_path : pystr) (index : bool) : M unit :=
  makedirs (dirname file_path) ;;
  catch (write_file file_path (to_csv_bytes d index))
        is_exception
        (fun e => print (MSaveError file_path e)).

(** [requests.get(url, stream=True)] *)
Definition requests_get (url : pystr) : M response :=
  w <- get_world ;;
  match http w url with
  | NetFail e => raise (RequestException e)
  | r => ret r
  end.

(** [response.raise_for_status()] *)
Definition raise_for_status (r : response) : M unit :=
  match r with
  | Resp status _ _ =>
      if (400 <=? status)%Z && (status <? 600)%Z
      then raise (RequestException (HTTPError status)) else ret tt
  | NetFail e => raise (RequestException e)
  end.

(** [for chunk in response.iter_content(chunk_size=8192): f.write(chunk)] *)
Fixpoint write_chunks (p : pystr) (chunks : list bytes) : M unit :=
  match chunks with
  | [] => ret tt
  | c :: cs => append_file p c ;; write_chunks p cs
  end.

Definition iter_content_into (p : pystr) (r : response) : M unit :=
  match r with
  | Resp _ chunks err =>
      write_chunks p chunks ;;
      match err with Some e => raise (RequestException e) | None => ret tt end
  | NetFail e => raise (RequestException e)
  end.

(** [zipfile.ZipFile(path, 'r')] *)
Definition zipfile_open (path : pystr) : M (list (pystr * option bytes)) :=
  b <- read_file path ;;
  match unzip b with
  | Some members => ret members
  | None => raise BadZipFile
  end.

Fixpoint member_lookup (name : pystr) (ms : list (pystr * option bytes)) : option (option bytes) :=
  match ms with
  | [] => None
  | (n, d) :: ms' => if pystr_eqb name n then Some d else member_lookup name ms'
  end.

(** [z.extract(member, path=path)] *)
Definition zip_extract (members : list (pystr * option bytes)) (member path : pystr) : M unit :=
  match member_lookup member members with
  | None => raise (KeyError member)
  | Some None => raise BadZipFile
  | Some (Some data) => write_file (path_join path member) data
  end.

(** [ET.parse(path).getroot()] *)
Definition et_parse (path : pystr) : M element :=
  b <- read_file path ;;
  match xml_parse b with
  | Some root => ret root
  | None => raise ParseError
  end.

(** The filter of the collection loop: [stock_code and len(stock_code) == 6]. *)
Definition is_listed (corp : element) : bool :=
  let stock_code := findtext corp (str "stock_code") in
  match stock_code with
  | Some s => pyval_truthy stock_code && Nat.eqb (List.length s) 6
  | None => false
  end.

Definition corp_row (corp : element) : row :=
  [(str "corp_code", findtext corp (str "corp_code"));
   (str "corp_name", findtext corp (str "corp_name"));
   (str "corp_eng_name", findtext corp (str "corp_eng_name"));
   (str "stock_code", findtext corp (str "stock_code"))].

(** The collection loop:
<<
    corp_list = []
    for corp in root.findall('list'):
        stock_code = corp.findtext('stock_code')
        if stock_code and len(stock_code) == 6:
            corp_list.append({...})
>> *)
Definition collect_listed (root : element) : df :=
  fold_left (fun corp_list corp =>
               if is_listed corp then corp_list ++ [corp_row corp] else corp_list)
            (findall root (str "list")) [].

Definition corp_code_url (api_key : pystr) : pystr :=
  str "https://opendart.fss.or.kr/api/corpCode.xml?crtfc_key=" ++ api_key.

(** [get_listed_corp_codes(api_key, output_dir)] *)
Definition get_listed_corp_codes (api_key output_dir : pystr) : M df :=
  print MFetchingCodes ;;
  let url_code := corp_code_url api_key in
  fetched <- catch (response <- requests_get url_code ;;
                    raise_for_status response ;;
                    ret (Some response))
                   is_request_exception
                   (fun e => print (MFetchCodesError e) ;; ret None) ;;
  match fetched with
  | None => ret []
  | Some response =>
    let corp_data_path := path_join output_dir (str "dart_corp_data") in
    makedirs corp_data_path ;;
    let xml_zip_path := path_join corp_data_path (str "CORPCODE.zip") in
    let xml_path := path_join corp_data_path (str "CORPCODE.xml") in
    open_wb xml_zip_path ;;
    iter_content_into xml_zip_path response ;;
    extracted <- catch (z <- zipfile_open xml_zip_path ;;
                        zip_extract z (str "CORPCODE.xml") corp_data_path ;;
                        print (MExtracted xml_path) ;;
                        ret true)
                       is_bad_zip
                       (fun _ => print MBadZip ;; ret false) ;;
    if negb extracted then ret [] else
    parsed <- catch (root <- et_parse xml_path ;; ret (Some root))
                    is_parse_error
                    (fun e => print (MParseError e) ;; ret None) ;;
    match parsed with
    | None => ret []
    | Some root =>
      let corp_codes_df := collect_listed root in
      let output_filepath := path_join output_dir (str "listed_corp_codes.csv") in
      save_df_to_csv corp_codes_df output_filepath false ;;
      print (MSavedCodes (List.length corp_codes_df) output_filepath) ;;
      ret corp_codes_df
    end
  end.

(** [dart_reader.company(corp_code)] *)
Definition company (dart_reader : pyval -> lookup) (corp_code : pyval) : M (option dict) :=
  match dart_reader corp_code with
  | LRaise e => raise e
  | LRet info => ret info
  end.

(** The record built for a KOSPI company (line 140-150, read with the comma
    missing after [info.get('ir_url')]). *)
Definition company_row (info : dict) : row :=
  [(str "corp_name", dict_get info (str "corp_name"));
   (str "corp_code", dict_get info (str "corp_code"));
   (str "stock_code", dict_get info (str "stock_code"));
   (str "ceo_name", dict_get info (str "ceo_nm"));
   (str "industry_code", dict_get info (str "induty_code"));
   (str "established_date", dict_get info (str "est_dt"));
   (str "ir_url", dict_get info (str "ir_url"));
   (str "corp_reg_number", dict_get info (str "jurir_no"));
   (str "business_no", dict_get info (str "bizr_no"))].

(** [info and info.get('corp_cls') == 'Y'] *)
Definition is_kospi (info : option dict) : bool :=
  match info with
  | Some d => info_truthy info && pyval_eqb (dict_get d (str "corp_cls")) (Some (str "Y"))
  | None => false
  end.

(** One iteration of the loop over [corp_codes_df.iterrows()]:
<<
        corp_code = row['corp_code']
        corp_name = row['corp_name']
        try:
            info = dart_reader.company(corp_code)
            if info and info.get('corp_cls') == 'Y':
                data.append({...})
            time.sleep(0.7)
        except Exception as e:
            print(f"Failed to fetch company info for {corp_name} ({corp_code}): {e}")
            continue
>>
    [data] is threaded as the accumulator; [time.sleep] raises no
    [Exception], so an appended record is never followed by the handler. *)
Definition enrich_step (dart_reader : pyval -> lookup) (data : df) (r : row) : M df :=
  corp_code <- row_get r (str "corp_code") ;;
  corp_name <- row_get r (str "corp_name") ;;
  catch (info <- company dart_reader corp_code ;;
         let data' := match info with
                      | Some d => if is_kospi info then data ++ [company_row d] else data
                      | None => data
                      end in
         time_sleep 700 ;;
         ret data')
        is_exception
        (fun e => print (MFailedInfo corp_name corp_code e) ;; ret data).

Fixpoint enrich_loop (dart_reader : pyval -> lookup) (data : df) (rows : df) : M df :=
  match rows with
  | [] => ret data
  | r :: rows' => data' <- enrich_step dart_reader data r ;; enrich_loop dart_reader data' rows'
  end.

(** [get_kospi_company_info(dart_reader, corp_codes_df, output_dir)] *)
Definition get_kospi_company_info (dart_reader : pyval -> lookup) (corp_codes_df : df)
  (output_dir : pystr) : M df :=
  print MFetchingInfo ;;
  data <- enrich_loop dart_reader [] corp_codes_df ;;
  let kospi_codes_df := data in
  let output_filepath := path_join output_dir (str "kospi_company_info.csv") in
  save_df_to_csv kospi_codes_df output_filepath false ;;
  print (MSavedInfo (List.length kospi_codes_df) output_filepath) ;;
  ret kospi_codes_df.

End DataLoader.

Arguments is_kospi : simpl never.
Arguments corp_code_url : simpl never.

(* ------------------------------------------------------------------ *)
(** ** The module body: [load_dotenv()], the key check, [BASE_DATA_DIR] *)

(** [os.environ], and the [KEY=VALUE] entries of a [.env] file in file
    order, as association lists. *)
Definition environ := list (pystr * pystr).

(** [os.getenv(key)] *)
Fixpoint env_get (env : environ) (k : pystr) : pyval :=
  match env with
  | [] => None
  | (k', v) :: env' => if pystr_eqb k k' then Some v else env_get env' k
  end.

(** [os.environ[k] = v] *)
Fixpoint env_set (k v : pystr) (env : environ) : environ :=
  match env with
  | [] => [(k, v)]
  | (k', v') :: env' => if pystr_eqb k k' then (k', v) :: env' else (k', v') :: env_set k v env'
  end.

(** [dotenv_values()]: the entries of the file as a dict; a later entry
    for a key replaces an earlier one. *)
Definition dotenv_values (lines : environ) : environ :=
  fold_left (fun d kv => env_set (fst kv) (snd kv) d) lines [].

(** [load_dotenv()], i.e. [override=False]:
<<
    for k, v in self.dict().items():
        if k in os.environ and not self.override:
            continue
        if v is not None:
            os.environ[k] = v
>> *)
Definition load_dotenv (lines : environ) (env : environ) : environ :=
  fold_left (fun env kv => match env_get env (fst kv) with
                           | Some _ => env
                           | None => env_set (fst kv) (snd kv) env
                           end)
            (dotenv_values lines) env.

Definition api_key_missing : pystr :=
  str "OPENDART_API_KEY not found in environment variables. Please set it in a .env file.".

(** [BASE_DATA_DIR = os.path.join('data', 'raw')] *)
Definition BASE_DATA_DIR : pystr := path_join (str "data") (str "raw").

(** The statements run when the module is imported (lines 18-24, 39-40):
<<
    load_dotenv()
    API_KEY = os.getenv("OPENDART_API_KEY")
    if not API_KEY:
        raise ValueError("OPENDART_API_KEY not found ...")
    BASE_DATA_DIR = os.path.join('data', 'raw')
    os.makedirs(BASE_DATA_DIR, exist_ok=True)
>>
    [load_dotenv()] changes [os.environ] before anything can raise, so
    the result pairs [os.environ] after it (kept also when the import
    then raises) with the rest of the run, which yields [API_KEY]. *)
Definition data_loader_module (lines env : environ) : environ * M pyval :=
  let env := load_dotenv lines env in
  let API_KEY := env_get env (str "OPENDART_API_KEY") in
  (env,
   if negb (pyval_truthy API_KEY) then raise (ValueError api_key_missing) else
   makedirs BASE_DATA_DIR ;;
   ret API_KEY).

(* ------------------------------------------------------------------ *)
(** ** Concrete inputs used to run the model *)

Module Fixture.

(** A stand-in for pandas' serialiser: one comma per row. *)
Definition csv_of (d : df) (index : bool) : bytes := repeat Byte.x2c (List.length d).

(** [data/raw] exists (created at import time); [ro] is a read-only directory. *)
Definition fs0 : fsys :=
  {| dirs := [str "data"; str "data/raw"; str "ro"]; files := []; readonly := [str "ro"] |}.

Definition world_of (h : pystr -> response) : world :=
  {| fs := fs0; stdout := []; sleeps := []; http := h |}.

Definition w0 : world := world_of (fun _ => NetFail ConnectionError).

(** Directory rows and detail responses for the enricher. *)
Definition code_row (code name : string) : row :=
  [(str "corp_code", Some (str code)); (str "corp_name", Some (str name));
   (str "corp_eng_name", None); (str "stock_code", Some (str "005930"))].

Definition detail (code cls : string) : dict :=
  [(str "corp_cls", Some (str cls)); (str "corp_name", Some (str "Samsung"));
   (str "corp_code", Some (str code)); (str "stock_code", Some (str "005930"));
   (str "ceo_nm", Some (str "Lee")); (str "induty_code", Some (str "264"))].

Definition rows5 : df :=
  [code_row "00000001" "A"; code_row "00000002" "B"; code_row "00000003" "C";
   code_row "00000004" "D"; code_row "00000005" "E"].

(** One lookup raises, two are classified ['Y'], two are not. *)
Definition dart5 (c : pyval) : lookup :=
  if pyval_eqb c (Some (str "00000001")) then LRet (Some (detail "00000001" "Y"))
  else if pyval_eqb c (Some (str "00000002")) then LRaise (ClientError (str "timeout"))
  else if pyval_eqb c (Some (str "00000003")) then LRet (Some (detail "00000003" "K"))
  else if pyval_eqb c (Some (str "00000004")) then LRet (Some (detail "00000004" "Y"))
  else LRet (Some (detail "00000005" "y")).

(** A detail response naming another code than the directory row. *)
Definition dart_renamed (c : pyval) : lookup := LRet (Some (detail "99999999" "Y")).

(** A directory document with five records: three with a 6-character
    ticker, one whose ticker is a blank, one without a ticker. *)
Definition el (t x : string) : element := Element (str t) (Some (str x)) [].

Definition corp (code stock : string) : element :=
  Element (str "list") None [el "corp_code" code; el "corp_name" "n"; el "stock_code" stock].

Definition root5 : element :=
  Element (str "result") None
    [corp "00000001" "005930"; corp "00000002" " "; corp "00000003" "000660";
     Element (str "list") None [el "corp_code" "00000004"]; corp "00000005" "123456"].

(** An archive reader that finds [CORPCODE.xml] in any non-empty bytes,
    and a parser that reads them as [root5]. *)
Definition unzip_one (b : bytes) : option (list (pystr * option bytes)) :=
  match b with [] => None | _ => Some [(str "CORPCODE.xml", Some b)] end.

Definition parse_root5 (b : bytes) : option element := Some root5.

Definition http_ok (u : pystr) : response := Resp 200 [[Byte.x50]; [Byte.x4b]] None.

Definition w_ok : world := world_of http_ok.

(** The same network, with a stale output file left by an earlier run. *)
Definition w_ok_stale : world :=
  {| fs := {| dirs := dirs fs0; files := [(str "data/raw/listed_corp_codes.csv", [Byte.x00])];
              readonly := readonly fs0 |};
     stdout := [MFetchingCodes]; sleeps := []; http := http_ok |}.

(** A directory row without its [corp_name] column. *)
Definition row_no_name : row := [(str "corp_code", Some (str "00000009"))].

(** A body stream that breaks after its first chunk. *)
Definition w_broken : world :=
  world_of (fun _ => Resp 200 [[Byte.x50]] (Some ChunkedEncodingError)).

(** An archive reader that finds only [other.xml] in non-empty bytes. *)
Definition unzip_other (b : bytes) : option (list (pystr * option bytes)) :=
  match b with [] => None | _ => Some [(str "other.xml", Some b)] end.

(** The answering network, with a file of another table already saved. *)
Definition w_ok_prev : world :=
  {| fs := {| dirs := dirs fs0; files := [(str "data/raw/kospi_company_info.csv", [Byte.x01])];
              readonly := readonly fs0 |};
     stdout := []; sleeps := []; http := http_ok |}.

End Fixture.

(* ------------------------------------------------------------------ *)
(** ** Reference functions for the statements about the enricher *)

(** The value of column [k] of a row ([None] also when it is missing). *)
Definition col (r : row) (k : pystr) : pyval :=
  match find (fun kv => pystr_eqb (fst kv) k) r with
  | Some (_, v) => v
  | None => None
  end.

Definition has_col (r : row) (k : pystr) : bool :=
  match find (fun kv => pystr_eqb (fst kv) k) r with Some _ => true | None => false end.

(** The input rows carry the two columns the loop reads outside its [try]. *)
Definition has_id_columns (r : row) : bool :=
  has_col r (str "corp_code") && has_col r (str "corp_name").

(** The records expected from the enricher: one per input row whose lookup
    succeeded with the classification ['Y'], in input order. *)
Definition kospi_rows (dart_reader : pyval -> lookup) (rows : df) : df :=
  flat_map (fun r => match dart_reader (col r (str "corp_code")) with
                     | LRet (Some d) => if is_kospi (Some d) then [company_row d] else []
                     | _ => []
                     end) rows.

(** The diagnostics expected for the rows whose lookup raised. *)
Definition failure_msgs (dart_reader : pyval -> lookup) (rows : df) : list msg :=
  flat_map (fun r => match dart_reader (col r (str "corp_code")) with
                     | LRaise e => [MFailedInfo (col r (str "corp_name")) (col r (str "corp_code")) e]
                     | LRet _ => []
                     end) rows.

(** The number of input rows whose lookup returned without raising. *)
Definition looked_up (dart_reader : pyval -> lookup) (rows : df) : nat :=
  List.length (filter (fun r => match dart_reader (col r (str "corp_code")) with
                                | LRet _ => true | LRaise _ => false end) rows).

(** The table the fetcher returns, as a function of the network answer
    alone: empty on a failed request, an error status, an archive that is
    not a zip, a corrupt [CORPCODE.xml] member, or malformed markup;
    otherwise the collected listed companies. *)
Definition expected_listed_codes (unzip : bytes -> option (list (pystr * option bytes)))
  (xml_parse : bytes -> option element) (resp : response) : df :=
  match resp with
  | NetFail _ => []
  | Resp status chunks _ =>
      if (400 <=? status)%Z && (status <? 600)%Z then [] else
      match unzip (List.concat chunks) with
      | None => []
      | Some members =>
          match member_lookup (str "CORPCODE.xml") members with
          | Some (Some content) =>
              match xml_parse content with
              | Some root => collect_listed root
              | None => []
              end
          | _ => []
          end
      end
  end.

(** The value a variable has once [load_dotenv()] ran: the process
    environment's, else the [.env] file's. *)
Definition key_in_effect (lines env : environ) (k : pystr) : pyval :=
  match env_get env k with
  | Some v => Some v
  | None => env_get (dotenv_values lines) k
  end.

(** The last component [os.makedirs] takes of [name] (its [tail], taken
    again from the head when [name] ends with a slash). *)
Definition makedirs_tail (name : pystr) : pystr :=
  let '(head, tail) := path_split name in
  match tail with [] => snd (path_split head) | _ => tail end.

(** [m] changes no file outside [ps]. *)
Definition files_frame {A} (ps : list pystr) (m : M A) : Prop :=
  forall w o w' q, m w = (o, w') -> ~ In q ps ->
  file_lookup q (files (fs w')) = file_lookup q (files (fs w)).

(** [m] removes no directory. *)
Definition dirs_grow {A} (m : M A) : Prop :=
  forall w o w', m w = (o, w') -> incl (dirs (fs w)) (dirs (fs w')).

(** [sub] is an order-preserving subsequence of [l]. *)
Inductive subseq {A} : list A -> list A -> Prop :=
| subseq_nil : subseq [] []
| subseq_keep x s l : subseq s l -> subseq (x :: s) (x :: l)
| subseq_skip x s l : subseq s l -> subseq s (x :: l).

(* ------------------------------------------------------------------ *)
(** * Lemmas about the monad and the file system *)

Lemma bind_ret_inv {A B} (m : M A) (f : A -> M B) w b w'' :
  bind m f w = (Ret b, w'') ->
  exists a w', m w = (Ret a, w') /\ f a w' = (Ret b, w'').
Proof.
  unfold bind. destruct (m w) as [[a|e] w1]; intros H; [eauto | discriminate].
Qed.

Lemma bind_raise_inv {A B} (m : M A) (f : A -> M B) w e w'' :
  bind m f w = (Raise e, w'') ->
  m w = (Raise e, w'') \/ exists a w', m w = (Ret a, w') /\ f a w' = (Raise e, w'').
Proof.
  unfold bind. destruct (m w) as [[a|e'] w1]; intros H; [right; eauto | left; congruence].
Qed.

Lemma catch_inv {A} (m : M A) sel h w o w' :
  catch m sel h w = (o, w') ->
  (m w = (o, w') /\ forall e, o = Raise e -> sel e = false) \/
  (exists e w1, m w = (Raise e, w1) /\ sel e = true /\ h e w1 = (o, w')).
Proof.
  unfold catch. destruct (m w) as [[a|e] w1] eqn:Em; intros H.
  - left; split; [exact H | inversion H; subst; intros e Ho; discriminate].
  - destruct (sel e) eqn:Es.
    + right; eauto.
    + inversion H; subst. left; split; [reflexivity | intros e' Ho; inversion Ho; subst; exact Es].
Qed.

Lemma bind_ret {A B} (m : M A) (f : A -> M B) w a w' :
  m w = (Ret a, w') -> bind m f w = f a w'.
Proof. unfold bind; intros ->; reflexivity. Qed.

Lemma bind_raise {A B} (m : M A) (f : A -> M B) w e w' :
  m w = (Raise e, w') -> bind m f w = (Raise e, w').
Proof. unfold bind; intros ->; reflexivity. Qed.

Lemma file_lookup_set_same p b l : file_lookup p (file_set p b l) = Some b.
Proof.
  induction l as [|[q c] l IH]; simpl.
  - rewrite pystr_eqb_refl; reflexivity.
  - destruct (pystr_eqb p q) eqn:E; simpl; rewrite ?E; [reflexivity | exact IH].
Qed.

Lemma file_lookup_set_other p q b l :
  p <> q -> file_lookup p (file_set q b l) = file_lookup p l.
Proof.
  intros Hne; induction l as [|[r c] l IH]; simpl.
  - destruct (pystr_eqb p q) eqn:E; [apply pystr_eqb_eq in E; congruence | reflexivity].
  - destruct (pystr_eqb q r) eqn:E; simpl.
    + apply pystr_eqb_eq in E; subst.
      destruct (pystr_eqb p r) eqn:E'; [apply pystr_eqb_eq in E'; congruence | reflexivity].
    + destruct (pystr_eqb p r); [reflexivity | exact IH].
Qed.

Lemma write_file_lookup p b w w' :
  write_file p b w = (Ret tt, w') -> file_lookup p (files (fs w')) = Some b.
Proof.
  unfold write_file, bind, open_wb.
  destruct p as [|c p]; [discriminate|].
  destruct (ends_with_slash (c :: p) || isdir (fs w) (c :: p)); [discriminate|].
  destruct (parent_check (fs w) (dirname (c :: p)) (c :: p)); [discriminate|].
  unfold append_file; simpl. rewrite file_lookup_set_same.
  intros H; inversion H; subst; simpl. apply file_lookup_set_same.
Qed.

Lemma write_file_keeps p b w o w' :
  write_file p b w = (o, w') ->
  stdout w' = stdout w /\ sleeps w' = sleeps w /\ http w' = http w /\
  readonly (fs w') = readonly (fs w).
Proof.
  unfold write_file, bind, open_wb.
  destruct p as [|c p]; [intros H; inversion H; repeat split|].
  destruct (ends_with_slash (c :: p) || isdir (fs w) (c :: p));
    [intros H; inversion H; repeat split|].
  destruct (parent_check (fs w) (dirname (c :: p)) (c :: p));
    intros H; inversion H; repeat split.
Qed.

Lemma write_file_stdout p b w o w' :
  write_file p b w = (o, w') -> stdout w' = stdout w.
Proof. intros H; apply (write_file_keeps _ _ _ _ _ H). Qed.

Lemma no_slash_span r :
  forallb (fun c => negb (is_slash c)) r = true -> span_tail r = (r, []).
Proof.
  induction r as [|c r IH]; simpl; [reflexivity|].
  intros H; apply andb_prop in H as [H1 H2].
  destruct (is_slash c); [discriminate|]. rewrite (IH H2); reflexivity.
Qed.

Lemma forallb_rev {A} (f : A -> bool) l : forallb f (rev l) = forallb f l.
Proof.
  induction l as [|x l IH]; simpl; [reflexivity|].
  rewrite forallb_app, IH; simpl; rewrite andb_true_r, andb_comm; reflexivity.
Qed.

Lemma dirname_no_slash p :
  forallb (fun c => negb (is_slash c)) p = true -> dirname p = [].
Proof.
  intros H; unfold dirname, path_split.
  rewrite no_slash_span by (rewrite forallb_rev; exact H). reflexivity.
Qed.

Lemma makedirs_empty w :
  makedirs [] w = (Raise (FileNotFoundError []), w).
Proof. reflexivity. Qed.

(* ------------------------------------------------------------------ *)
(** * Frame lemmas: what an operation leaves untouched *)

(** [m] changes at most the directories of the file system. *)
Definition dirs_only {A} (m : M A) : Prop :=
  forall w o w', m w = (o, w') ->
  files (fs w') = files (fs w) /\ readonly (fs w') = readonly (fs w) /\
  stdout w' = stdout w /\ sleeps w' = sleeps w /\ http w' = http w.

(** [m] raises only exceptions satisfying [P]. *)
Definition raises_only {A} (P : exn -> Prop) (m : M A) : Prop :=
  forall w e w', m w = (Raise e, w') -> P e.

Lemma dirs_only_ret {A} (a : A) : dirs_only (ret a).
Proof. intros w o w' H; inversion H; subst; repeat split. Qed.

Lemma dirs_only_raise {A} e : dirs_only (@raise A e).
Proof. intros w o w' H; inversion H; subst; repeat split. Qed.

Lemma dirs_only_get_world : dirs_only get_world.
Proof. intros w o w' H; inversion H; subst; repeat split. Qed.

Lemma dirs_only_bind {A B} (m : M A) (f : A -> M B) :
  dirs_only m -> (forall a, dirs_only (f a)) -> dirs_only (bind m f).
Proof.
  intros Hm Hf w o w'. unfold bind.
  destruct (m w) as [[a|e] w1] eqn:E; intros H.
  - destruct (Hm _ _ _ E) as (H1 & H2 & H3 & H4 & H5).
    destruct (Hf a _ _ _ H) as (G1 & G2 & G3 & G4 & G5).
    repeat split; congruence.
  - inversion H; subst. exact (Hm _ _ _ E).
Qed.

Lemma dirs_only_catch {A} (m : M A) sel h :
  dirs_only m -> (forall e, dirs_only (h e)) -> dirs_only (catch m sel h).
Proof.
  intros Hm Hh w o w'. unfold catch.
  destruct (m w) as [[a|e] w1] eqn:E; intros H.
  - inversion H; subst. exact (Hm _ _ _ E).
  - destruct (Hm _ _ _ E) as (H1 & H2 & H3 & H4 & H5).
    destruct (sel e).
    + destruct (Hh e _ _ _ H) as (G1 & G2 & G3 & G4 & G5). repeat split; congruence.
    + inversion H; subst. repeat split; assumption.
Qed.

Lemma dirs_only_mkdir p : dirs_only (mkdir p).
Proof.
  intros w o w'. unfold mkdir.
  destruct p as [|c p]; [intros H; inversion H; subst; repeat split|].
  destruct (path_exists (fs w) (c :: p)); [intros H; inversion H; subst; repeat split|].
  destruct (parent_check (fs w) (dirname (norm_dir (c :: p))) (c :: p));
    intros H; inversion H; subst; repeat split.
Qed.

Create HintDb frame.
#[local] Hint Resolve dirs_only_ret dirs_only_raise dirs_only_get_world dirs_only_bind
  dirs_only_catch dirs_only_mkdir : frame.

Lemma dirs_only_makedirs_fuel n p : dirs_only (makedirs_fuel n p).
Proof.
  revert p; induction n as [|n IH]; intros p; simpl.
  - apply dirs_only_catch; auto with frame.
    intros e; apply dirs_only_bind; auto with frame.
    intros w; destruct (isdir (fs w) p); auto with frame.
  - destruct (path_split p) as [head tail].
    destruct (match tail with [] => path_split head | _ => (head, tail) end) as [h t].
    apply dirs_only_bind; auto with frame. intros w.
    assert (Hm : dirs_only (catch (mkdir p) is_os_error
                   (fun e => w0 <- get_world ;; if isdir (fs w0) p then ret tt else raise e))).
    { apply dirs_only_catch; auto with frame.
      intros e; apply dirs_only_bind; auto with frame.
      intros w0; destruct (isdir (fs w0) p); auto with frame. }
    destruct h as [|x h]; [exact Hm|]. destruct t as [|y t]; [exact Hm|].
    destruct (negb (path_exists (fs w) (x :: h))); [|exact Hm].
    apply dirs_only_bind; [apply dirs_only_catch; auto with frame|].
    intros []; destruct (pystr_eqb (y :: t) cur_dir); auto with frame.
Qed.

Lemma dirs_only_makedirs p : dirs_only (makedirs p).
Proof. apply dirs_only_makedirs_fuel. Qed.

(* ------------------------------------------------------------------ *)
(** * The persistence utility [save_df_to_csv] *)

(** C10: a target path without a directory component has the empty
    dirname; [os.makedirs('')] raises [FileNotFoundError] outside the
    guarded block, so [save_df_to_csv] raises instead of printing a
    diagnostic. *)
Theorem save_df_to_csv_bare_name_raises to_csv d p index w :
  forallb (fun c => negb (is_slash c)) p = true ->
  save_df_to_csv to_csv d p index w = (Raise (FileNotFoundError []), w).
Proof.
  intros H. unfold save_df_to_csv.
  rewrite (dirname_no_slash p H).
  apply bind_raise, makedirs_empty.
Qed.

Lemma save_df_to_csv_bare_name_raises_witness :
  forallb (fun c => negb (is_slash c)) (str "kospi_company_info.csv") = true /\
  save_df_to_csv Fixture.csv_of [] (str "kospi_company_info.csv") false Fixture.w0
  = (Raise (FileNotFoundError []), Fixture.w0).
Proof.
  split; [reflexivity|].
  apply save_df_to_csv_bare_name_raises. reflexivity.
Defined.

(** C6, counterexample: with a read-only directory [ro], saving to
    [ro/out/x.csv] raises [PermissionError] from [os.makedirs]. *)
Lemma save_df_to_csv_raises_cex :
  fst (save_df_to_csv Fixture.csv_of [] (str "ro/out/x.csv") false Fixture.w0)
  = Raise (PermissionError (str "ro/out")).
Proof. vm_compute. reflexivity. Qed.

Lemma save_df_to_csv_raise_inv to_csv d p index w e w' :
  save_df_to_csv to_csv d p index w = (Raise e, w') ->
  makedirs (dirname p) w = (Raise e, w').
Proof.
  intros H. unfold save_df_to_csv in H.
  apply bind_raise_inv in H as [H | [[] [w1 [H1 H2]]]]; [exact H|].
  apply catch_inv in H2 as [[_ Hs] | [e' [w2 [_ [_ Hh]]]]].
  - specialize (Hs e eq_refl); discriminate.
  - discriminate.
Qed.

(** C6, as amended: [os.makedirs] on the dirname runs outside the [try],
    so [save_df_to_csv] raises exactly what it raises: an exception of
    [os.makedirs] propagates to the caller, with the same world, and the
    call raises nothing else. Once the directories exist the call returns
    normally, and then either the file holds [df.to_csv(index=False)] or
    the write failed and a diagnostic naming the path was printed. *)
Theorem save_df_to_csv_guarded to_csv d p w :
  (forall e w', save_df_to_csv to_csv d p false w = (Raise e, w') <->
     makedirs (dirname p) w = (Raise e, w')) /\
  (forall w1, makedirs (dirname p) w = (Ret tt, w1) ->
     exists w', save_df_to_csv to_csv d p false w = (Ret tt, w') /\
       (file_lookup p (files (fs w')) = Some (to_csv d false) \/
        exists e, stdout w' = stdout w1 ++ [MSaveError p e])).
Proof.
  split.
  - intros e w'; split; [apply save_df_to_csv_raise_inv|].
    intros H. unfold save_df_to_csv. exact (bind_raise _ _ _ _ _ H).
  - intros w1 H1. unfold save_df_to_csv. rewrite (bind_ret _ _ _ _ _ H1).
    unfold catch.
    destruct (write_file p (to_csv d false) w1) as [[[]|e] w2] eqn:Ew.
    + exists w2; split; [reflexivity|]. left; exact (write_file_lookup _ _ _ _ Ew).
    + eexists; split; [reflexivity|]. right; exists e; simpl.
      rewrite (write_file_stdout _ _ _ _ _ Ew); reflexivity.
Qed.

Lemma save_df_to_csv_guarded_witness :
  (exists w', save_df_to_csv Fixture.csv_of [] (str "data/raw/x.csv") false Fixture.w0 = (Ret tt, w') /\
       (file_lookup (str "data/raw/x.csv") (files (fs w')) = Some (Fixture.csv_of [] false) \/
        exists e, stdout w' = stdout Fixture.w0 ++ [MSaveError (str "data/raw/x.csv") e])) /\
  save_df_to_csv Fixture.csv_of [] (str "ro/sub/x.csv") false Fixture.w0
  = (Raise (PermissionError (str "ro/sub")), Fixture.w0).
Proof.
  split.
  - apply (proj2 (save_df_to_csv_guarded Fixture.csv_of [] (str "data/raw/x.csv") Fixture.w0)).
    reflexivity.
  - apply (proj1 (save_df_to_csv_guarded Fixture.csv_of [] (str "ro/sub/x.csv") Fixture.w0)).
    vm_compute. reflexivity.
Defined.

(* ------------------------------------------------------------------ *)
(** * The detail enricher [get_kospi_company_info] *)

Lemma row_get_col r k w :
  has_col r k = true -> row_get r k w = (Ret (col r k), w).
Proof.
  unfold has_col, row_get, col.
  destruct (find (fun kv => pystr_eqb (fst kv) k) r) as [[k' v]|]; [reflexivity | discriminate].
Qed.

(** One iteration: a raising lookup prints a diagnostic and leaves [data]
    and the clock alone; a returning lookup appends the record when it is
    classified ['Y'] and sleeps 700 ms. *)
Lemma enrich_step_spec dart data r w :
  has_id_columns r = true ->
  enrich_step dart data r w =
  match dart (col r (str "corp_code")) with
  | LRaise e =>
      (Ret data, {| fs := fs w;
                    stdout := stdout w ++ [MFailedInfo (col r (str "corp_name")) (col r (str "corp_code")) e];
                    sleeps := sleeps w; http := http w |})
  | LRet info =>
      (Ret (match info with
            | Some d => if is_kospi info then data ++ [company_row d] else data
            | None => data
            end),
       {| fs := fs w; stdout := stdout w; sleeps := sleeps w ++ [700%N]; http := http w |})
  end.
Proof.
  unfold has_id_columns; intros H; apply andb_prop in H as [Hc Hn].
  unfold enrich_step.
  rewrite (bind_ret _ _ _ _ _ (row_get_col r _ w Hc)).
  rewrite (bind_ret _ _ _ _ _ (row_get_col r _ w Hn)).
  unfold catch, company, bind.
  destruct (dart (col r (str "corp_code"))) as [e|info]; reflexivity.
Qed.

Lemma enrich_loop_spec dart rows :
  forallb has_id_columns rows = true ->
  forall data w,
  enrich_loop dart data rows w =
  (Ret (data ++ kospi_rows dart rows),
   {| fs := fs w; stdout := stdout w ++ failure_msgs dart rows;
      sleeps := sleeps w ++ repeat 700%N (looked_up dart rows); http := http w |}).
Proof.
  induction rows as [|r rows IH]; intros Hall data w.
  - simpl. rewrite !app_nil_r. destruct w; reflexivity.
  - simpl in Hall; apply andb_prop in Hall as [Hr Hrows].
    simpl. unfold bind. rewrite (enrich_step_spec dart data r w Hr).
    destruct (dart (col r (str "corp_code"))) as [e|[d|]] eqn:Ed;
      rewrite IH by exact Hrows; unfold kospi_rows, failure_msgs, looked_up; simpl;
      rewrite Ed; simpl.
    + rewrite <- !app_assoc. reflexivity.
    + destruct (is_kospi (Some d)); simpl; rewrite <- !app_assoc; reflexivity.
    + rewrite <- !app_assoc. reflexivity.
Qed.

Lemma save_df_to_csv_keeps to_csv d p index w o w' :
  save_df_to_csv to_csv d p index w = (o, w') ->
  sleeps w' = sleeps w /\ http w' = http w.
Proof.
  unfold save_df_to_csv, bind.
  destruct (makedirs (dirname p) w) as [[[]|e] w1] eqn:E;
    destruct (dirs_only_makedirs _ _ _ _ E) as (_ & _ & _ & Hs & Hh).
  - unfold catch.
    destruct (write_file p (to_csv d index) w1) as [[[]|e] w2] eqn:Ew;
      destruct (write_file_keeps _ _ _ _ _ Ew) as (_ & Gs & Gh & _);
      intros H; inversion H; subst; simpl; split; congruence.
  - intros H; inversion H; subst; split; assumption.
Qed.

Lemma get_kospi_company_info_spec to_csv dart rows out w o w' :
  forallb has_id_columns rows = true ->
  get_kospi_company_info to_csv dart rows out w = (o, w') ->
  (o = Ret (kospi_rows dart rows) \/
   exists e w1 w2, o = Raise e /\
     makedirs (dirname (path_join out (str "kospi_company_info.csv"))) w1 = (Raise e, w2)) /\
  sleeps w' = sleeps w ++ repeat 700%N (looked_up dart rows).
Proof.
  intros Hall H. unfold get_kospi_company_info in H.
  unfold bind at 1 in H; simpl in H.
  unfold bind at 1 in H. rewrite (enrich_loop_spec dart rows Hall) in H.
  simpl app in H.
  set (w1 := {| fs := _; stdout := _; sleeps := _; http := _ |}) in H.
  destruct (save_df_to_csv to_csv (kospi_rows dart rows)
              (path_join out (str "kospi_company_info.csv")) false w1) as [[[]|e] w2] eqn:Es;
    unfold bind in H; rewrite Es in H;
    destruct (save_df_to_csv_keeps _ _ _ _ _ _ _ Es) as [Hs _].
  - inversion H; subst. split; [left; reflexivity|]. simpl. rewrite Hs. reflexivity.
  - inversion H; subst. split.
    + right. exists e, w1, w'. split; [reflexivity|].
      exact (save_df_to_csv_raise_inv _ _ _ _ _ _ _ Es).
    + rewrite Hs. reflexivity.
Qed.

Lemma is_kospi_iff d :
  is_kospi (Some d) = true <-> dict_get d (str "corp_cls") = Some (str "Y").
Proof.
  unfold is_kospi, info_truthy. destruct d as [|kv d].
  - simpl. split; discriminate.
  - simpl. destruct (dict_get (kv :: d) (str "corp_cls")) as [v|]; simpl.
    + rewrite pystr_eqb_eq. split; [intros ->; reflexivity | intros H; inversion H; reflexivity].
    + split; discriminate.
Qed.

Lemma kospi_rows_subseq dart rows :
  exists sub, subseq sub rows /\
    Forall2 (fun r e => exists d, dart (col r (str "corp_code")) = LRet (Some d) /\ e = company_row d)
            sub (kospi_rows dart rows).
Proof.
  induction rows as [|r rows [sub [Hs Hf]]].
  - exists []; split; constructor.
  - unfold kospi_rows; simpl; fold (kospi_rows dart rows).
    destruct (dart (col r (str "corp_code"))) as [e|[d|]] eqn:Ed.
    + exists sub; split; [constructor; exact Hs | exact Hf].
    + destruct (is_kospi (Some d)).
      * exists (r :: sub); split; [constructor; exact Hs|].
        simpl; constructor; [exists d; split; [exact Ed | reflexivity] | exact Hf].
      * exists sub; split; [constructor; exact Hs | exact Hf].
    + exists sub; split; [constructor; exact Hs | exact Hf].
Qed.

(** C3: a lookup that raises only skips its record: the loop always
    completes with exactly the records whose lookup returned a ['Y']
    classification, and prints, for each failing record, a diagnostic
    naming it. The whole function returns that table, or raises only what
    [os.makedirs] raises when saving it. *)
Theorem get_kospi_company_info_skips_failures to_csv dart rows out w :
  forallb has_id_columns rows = true ->
  (exists w1, enrich_loop dart [] rows w = (Ret (kospi_rows dart rows), w1) /\
     forall r e, In r rows -> dart (col r (str "corp_code")) = LRaise e ->
       In (MFailedInfo (col r (str "corp_name")) (col r (str "corp_code")) e) (stdout w1)) /\
  (forall o w', get_kospi_company_info to_csv dart rows out w = (o, w') ->
     o = Ret (kospi_rows dart rows) \/
     exists e w1 w2, o = Raise e /\
       makedirs (dirname (path_join out (str "kospi_company_info.csv"))) w1 = (Raise e, w2)).
Proof.
  intros Hall. split.
  - eexists; split; [apply (enrich_loop_spec dart rows Hall)|].
    intros r e Hin He; simpl. apply in_or_app; right.
    unfold failure_msgs. apply in_flat_map. exists r; split; [exact Hin|].
    rewrite He; left; reflexivity.
  - intros o w' H. exact (proj1 (get_kospi_company_info_spec _ _ _ _ _ _ _ Hall H)).
Qed.

Lemma get_kospi_company_info_skips_failures_witness :
  forallb has_id_columns Fixture.rows5 = true /\
  exists w1, enrich_loop Fixture.dart5 [] Fixture.rows5 Fixture.w0
             = (Ret (kospi_rows Fixture.dart5 Fixture.rows5), w1) /\
     forall r e, In r Fixture.rows5 -> Fixture.dart5 (col r (str "corp_code")) = LRaise e ->
       In (MFailedInfo (col r (str "corp_name")) (col r (str "corp_code")) e) (stdout w1).
Proof.
  split; [reflexivity|].
  apply (get_kospi_company_info_skips_failures Fixture.csv_of Fixture.dart5 Fixture.rows5
           (str "data/raw") Fixture.w0).
  reflexivity.
Defined.

(** The five-row scenario of the spec: the table holds exactly the two
    ['Y'] records, in order. *)
Example get_kospi_company_info_five_rows :
  fst (get_kospi_company_info Fixture.csv_of Fixture.dart5 Fixture.rows5 (str "data/raw") Fixture.w0)
  = Ret [company_row (Fixture.detail "00000001" "Y"); company_row (Fixture.detail "00000004" "Y")].
Proof. vm_compute. reflexivity. Qed.

(** C4: for a lookup that returns, the record is appended exactly when
    [corp_cls] is the string ['Y'] (a case-sensitive comparison), and the
    iteration prints nothing either way. *)
Theorem enrich_step_classification dart data r w info :
  has_id_columns r = true ->
  dart (col r (str "corp_code")) = LRet info ->
  exists data' w', enrich_step dart data r w = (Ret data', w') /\
    stdout w' = stdout w /\
    (forall d, info = Some d -> dict_get d (str "corp_cls") = Some (str "Y") ->
       data' = data ++ [company_row d]) /\
    (~ (exists d, info = Some d /\ dict_get d (str "corp_cls") = Some (str "Y")) ->
       data' = data).
Proof.
  intros Hr Hl. rewrite (enrich_step_spec dart data r w Hr), Hl.
  eexists; eexists; split; [reflexivity|]. split; [reflexivity|]. split.
  - intros d -> Hy. apply is_kospi_iff in Hy. rewrite Hy. reflexivity.
  - intros Hn. destruct info as [d|]; [|reflexivity].
    destruct (is_kospi (Some d)) eqn:Ek; [|reflexivity].
    exfalso; apply Hn; exists d; split; [reflexivity | apply is_kospi_iff; exact Ek].
Qed.

Lemma enrich_step_classification_witness :
  exists data' w',
    enrich_step Fixture.dart5 [] (Fixture.code_row "00000005" "E") Fixture.w0 = (Ret data', w') /\
    stdout w' = stdout Fixture.w0 /\
    (forall d, Some (Fixture.detail "00000005" "y") = Some d ->
       dict_get d (str "corp_cls") = Some (str "Y") -> data' = [] ++ [company_row d]) /\
    (~ (exists d, Some (Fixture.detail "00000005" "y") = Some d /\
                  dict_get d (str "corp_cls") = Some (str "Y")) -> data' = []).
Proof.
  apply enrich_step_classification; reflexivity.
Defined.

(** C5, counterexample: in the five-row scenario one lookup raises; the
    loop sleeps four times, not five. *)
Lemma get_kospi_company_info_sleeps_cex :
  List.length (sleeps (snd (get_kospi_company_info Fixture.csv_of Fixture.dart5 Fixture.rows5
                                (str "data/raw") Fixture.w0))) = 4 /\
  List.length Fixture.rows5 = 5.
Proof. vm_compute. split; reflexivity. Qed.

(** C5, as amended: one pause of 700 ms follows every lookup that returned
    (kept or filtered out); a lookup that raised is skipped without a
    pause. *)
Theorem get_kospi_company_info_sleeps to_csv dart rows out w o w' :
  forallb has_id_columns rows = true ->
  get_kospi_company_info to_csv dart rows out w = (o, w') ->
  sleeps w' = sleeps w ++ repeat 700%N (looked_up dart rows).
Proof.
  intros Hall H. exact (proj2 (get_kospi_company_info_spec _ _ _ _ _ _ _ Hall H)).
Qed.

Lemma get_kospi_company_info_sleeps_witness :
  sleeps (snd (get_kospi_company_info Fixture.csv_of Fixture.dart5 Fixture.rows5
                 (str "data/raw") Fixture.w0))
  = sleeps Fixture.w0 ++ repeat 700%N (looked_up Fixture.dart5 Fixture.rows5).
Proof.
  apply (get_kospi_company_info_sleeps Fixture.csv_of Fixture.dart5 Fixture.rows5
           (str "data/raw") Fixture.w0
           (fst (get_kospi_company_info Fixture.csv_of Fixture.dart5 Fixture.rows5
                   (str "data/raw") Fixture.w0))).
  - reflexivity.
  - apply surjective_pairing.
Defined.

(** C7: the record appended for a ['Y'] lookup is built from the detail
    response alone: its [corp_name], [corp_code] and [stock_code] are those
    of the response, whatever the directory row holds. *)
Theorem enrich_step_fields_from_detail dart data r w d :
  has_id_columns r = true ->
  dart (col r (str "corp_code")) = LRet (Some d) ->
  is_kospi (Some d) = true ->
  exists w', enrich_step dart data r w = (Ret (data ++ [company_row d]), w') /\
    col (company_row d) (str "corp_name") = dict_get d (str "corp_name") /\
    col (company_row d) (str "corp_code") = dict_get d (str "corp_code") /\
    col (company_row d) (str "stock_code") = dict_get d (str "stock_code").
Proof.
  intros Hr Hl Hk. rewrite (enrich_step_spec dart data r w Hr), Hl, Hk.
  eexists; split; [reflexivity|]. repeat split.
Qed.

(** The directory row says [00000001]; the detail response says
    [99999999]; the record carries [99999999]. *)
Lemma enrich_step_fields_from_detail_witness :
  exists w', enrich_step Fixture.dart_renamed [] (Fixture.code_row "00000001" "A") Fixture.w0
             = (Ret ([] ++ [company_row (Fixture.detail "99999999" "Y")]), w') /\
    col (company_row (Fixture.detail "99999999" "Y")) (str "corp_name")
      = dict_get (Fixture.detail "99999999" "Y") (str "corp_name") /\
    col (company_row (Fixture.detail "99999999" "Y")) (str "corp_code")
      = Some (str "99999999") /\
    col (company_row (Fixture.detail "99999999" "Y")) (str "stock_code")
      = dict_get (Fixture.detail "99999999" "Y") (str "stock_code").
Proof.
  apply (enrich_step_fields_from_detail Fixture.dart_renamed [] (Fixture.code_row "00000001" "A")
           Fixture.w0 (Fixture.detail "99999999" "Y")); reflexivity.
Defined.

(** C9: the returned table lists, in input order, the records built for an
    order-preserving subsequence of the input rows. *)
Theorem get_kospi_company_info_order to_csv dart rows out w out_df w' :
  forallb has_id_columns rows = true ->
  get_kospi_company_info to_csv dart rows out w = (Ret out_df, w') ->
  exists sub, subseq sub rows /\
    Forall2 (fun r e => exists d, dart (col r (str "corp_code")) = LRet (Some d) /\ e = company_row d)
            sub out_df.
Proof.
  intros Hall H.
  destruct (proj1 (get_kospi_company_info_spec _ _ _ _ _ _ _ Hall H)) as [Ho | (e & _ & _ & Ho & _)].
  - inversion Ho; subst. apply kospi_rows_subseq.
  - discriminate.
Qed.

Lemma get_kospi_company_info_order_witness :
  exists sub, subseq sub Fixture.rows5 /\
    Forall2 (fun r e => exists d, Fixture.dart5 (col r (str "corp_code")) = LRet (Some d) /\
                                  e = company_row d)
            sub [company_row (Fixture.detail "00000001" "Y"); company_row (Fixture.detail "00000004" "Y")].
Proof.
  apply (get_kospi_company_info_order Fixture.csv_of Fixture.dart5 Fixture.rows5 (str "data/raw")
           Fixture.w0 _ (snd (get_kospi_company_info Fixture.csv_of Fixture.dart5 Fixture.rows5
                                 (str "data/raw") Fixture.w0))).
  - reflexivity.
  - vm_compute. reflexivity.
Defined.

(* ------------------------------------------------------------------ *)
(** * The code-directory fetcher [get_listed_corp_codes] *)

Lemma collect_listed_fold (l : list element) acc :
  fold_left (fun corp_list corp =>
               if is_listed corp then corp_list ++ [corp_row corp] else corp_list) l acc
  = acc ++ map corp_row (filter is_listed l).
Proof.
  revert acc; induction l as [|c l IH]; intros acc; simpl.
  - rewrite app_nil_r; reflexivity.
  - destruct (is_listed c); rewrite IH; simpl; [rewrite <- app_assoc|]; reflexivity.
Qed.

Lemma print_spec m w :
  print m w = (Ret tt, {| fs := fs w; stdout := stdout w ++ [m]; sleeps := sleeps w; http := http w |}).
Proof. reflexivity. Qed.

Lemma open_wb_ret p w u w' :
  open_wb p w = (Ret u, w') ->
  files (fs w') = file_set p [] (files (fs w)) /\ http w' = http w.
Proof.
  unfold open_wb. destruct p as [|c p]; [discriminate|].
  destruct (ends_with_slash (c :: p) || isdir (fs w) (c :: p)); [discriminate|].
  destruct (parent_check (fs w) (dirname (c :: p)) (c :: p)); [discriminate|].
  intros H; inversion H; subst; split; reflexivity.
Qed.

Lemma write_chunks_spec p cs : forall w b,
  file_lookup p (files (fs w)) = Some b ->
  exists w', write_chunks p cs w = (Ret tt, w') /\
    file_lookup p (files (fs w')) = Some (b ++ List.concat cs) /\ http w' = http w.
Proof.
  induction cs as [|c cs IH]; intros w b Hb; simpl.
  - exists w; rewrite app_nil_r; auto.
  - unfold bind at 1, append_file at 1. rewrite Hb.
    destruct (IH (set_fs w {| dirs := dirs (fs w); files := file_set p (b ++ c) (files (fs w));
                              readonly := readonly (fs w) |}) (b ++ c)) as (w' & H1 & H2 & H3).
    { simpl. apply file_lookup_set_same. }
    exists w'. split; [exact H1|]. rewrite <- app_assoc in H2. split; [exact H2 | exact H3].
Qed.

Lemma write_file_raise p b w e w' :
  write_file p b w = (Raise e, w') -> is_bad_zip e = false /\ is_parse_error e = false.
Proof.
  unfold write_file, bind, open_wb.
  destruct p as [|c p]; [intros H; inversion H; subst; split; reflexivity|].
  destruct (ends_with_slash (c :: p) || isdir (fs w) (c :: p));
    [intros H; inversion H; subst; split; reflexivity|].
  destruct (parent_check (fs w) (dirname (c :: p)) (c :: p)) as [e'|] eqn:E.
  - intros H; inversion H; subst. unfold parent_check in E.
    repeat match goal with
           | E : context [match ?x with _ => _ end] |- _ => destruct x
           end; inversion E; split; reflexivity.
  - discriminate.
Qed.

Lemma get_listed_corp_codes_ret unzip xml_parse to_csv api out w d w' :
  get_listed_corp_codes unzip xml_parse to_csv api out w = (Ret d, w') ->
  d = expected_listed_codes unzip xml_parse (http w (corp_code_url api)).
Proof.
  intros H. unfold get_listed_corp_codes in H.
  rewrite (bind_ret _ _ _ _ _ (print_spec _ _)) in H.
  apply bind_ret_inv in H as (fetched & w2 & Hc & H).
  unfold expected_listed_codes.
  unfold catch, requests_get, raise_for_status, bind, get_world, ret, raise in Hc; simpl in Hc.
  destruct (http w (corp_code_url api)) as [e|status chunks err] eqn:Eh.
  - inversion Hc; subst. inversion H; reflexivity.
  - destruct ((400 <=? status)%Z && (status <? 600)%Z).
    { inversion Hc; subst. inversion H; reflexivity. }
    inversion Hc; subst fetched w2; clear Hc.
    set (cdp := path_join out (str "dart_corp_data")) in H.
    set (zp := path_join cdp (str "CORPCODE.zip")) in H.
    set (xp := path_join cdp (str "CORPCODE.xml")) in H.
    set (w1 := {| fs := fs w; stdout := _; sleeps := _; http := _ |}) in H.
    apply bind_ret_inv in H as ([] & w3 & Hm & H).
    destruct (dirs_only_makedirs _ _ _ _ Hm) as (Hf3 & _ & _ & _ & Hh3).
    apply bind_ret_inv in H as ([] & w4 & Ho & H).
    destruct (open_wb_ret _ _ _ _ Ho) as [Hf4 Hh4].
    apply bind_ret_inv in H as ([] & w5 & Hi & H).
    unfold iter_content_into in Hi.
    destruct (write_chunks_spec zp chunks w4 []) as (w5' & Hw & Hl & Hh5).
    { rewrite Hf4; apply file_lookup_set_same. }
    rewrite (bind_ret _ _ _ _ _ Hw) in Hi.
    destruct err as [r|]; [discriminate|]. inversion Hi; subst w5; clear Hi.
    simpl app in Hl.
    apply bind_ret_inv in H as (extracted & w6 & Hx & H).
    assert (Hz : zipfile_open unzip zp w5' =
                 (match unzip (List.concat chunks) with Some m => Ret m | None => Raise BadZipFile end, w5')).
    { unfold zipfile_open, read_file, bind. rewrite Hl.
      destruct (unzip (List.concat chunks)); reflexivity. }
    unfold catch in Hx.
    destruct (unzip (List.concat chunks)) as [members|] eqn:Eu.
    2:{ rewrite (bind_raise _ _ _ _ _ Hz) in Hx. simpl in Hx. inversion Hx; subst.
        inversion H; reflexivity. }
    rewrite (bind_ret _ _ _ _ _ Hz) in Hx.
    unfold zip_extract in Hx at 1.
    destruct (member_lookup (str "CORPCODE.xml") members) as [[content|]|] eqn:Em.
    3:{ unfold bind, raise in Hx. simpl in Hx. discriminate. }
    2:{ unfold bind, raise in Hx. simpl in Hx. inversion Hx; subst. inversion H; reflexivity. }
    unfold bind at 1 in Hx. change (path_join cdp (str "CORPCODE.xml")) with xp in Hx.
    destruct (write_file xp content w5') as [[[]|e] w7] eqn:Ewf.
    2:{ destruct (write_file_raise _ _ _ _ _ Ewf) as [Hb _].
        destruct e; simpl in Hx; try discriminate Hx; discriminate Hb. }
    unfold bind, print, ret in Hx. simpl in Hx. inversion Hx; subst extracted w6; clear Hx.
    simpl negb in H.
    apply bind_ret_inv in H as (parsed & w8 & Hq & H).
    assert (Hx : file_lookup xp (files (fs w7)) = Some content) by exact (write_file_lookup _ _ _ _ Ewf).
    unfold catch, et_parse, bind, read_file in Hq. simpl in Hq. rewrite Hx in Hq.
    destruct (xml_parse content) as [root|].
    + inversion Hq; subst parsed w8; clear Hq.
      apply bind_ret_inv in H as ([] & w9 & Hs & H).
      rewrite (bind_ret _ _ _ _ _ (print_spec _ _)) in H.
      inversion H; reflexivity.
    + inversion Hq; subst. inversion H; reflexivity.
Qed.

(** C2: the collection loop keeps a [<list>] record exactly when its
    [stock_code] text is present, non-empty and 6 characters long, and
    keeps the kept records in document order. *)
Theorem collect_listed_filter root :
  collect_listed root = map corp_row (filter is_listed (findall root (str "list"))) /\
  forall corp, is_listed corp = true <->
    exists s, findtext corp (str "stock_code") = Some s /\ s <> [] /\ List.length s = 6.
Proof.
  split.
  - unfold collect_listed. rewrite collect_listed_fold. reflexivity.
  - intros corp. unfold is_listed.
    destruct (findtext corp (str "stock_code")) as [s|].
    + split.
      * intros H; apply andb_prop in H as [H1 H2].
        exists s; split; [reflexivity|]. split.
        -- destruct s; [discriminate | discriminate].
        -- apply Nat.eqb_eq; exact H2.
      * intros (s' & Hs & Hne & Hl). inversion Hs; subst s'.
        destruct s as [|c s]; [contradiction|]. rewrite Hl. reflexivity.
    + split; [discriminate | intros (s & Hs & _); discriminate].
Qed.

(** The five-record scenario of the spec. *)
Example collect_listed_five_records :
  collect_listed Fixture.root5 =
  [corp_row (Fixture.corp "00000001" "005930"); corp_row (Fixture.corp "00000003" "000660");
   corp_row (Fixture.corp "00000005" "123456")].
Proof. vm_compute. reflexivity. Qed.

(** C8: two runs that receive the same answer from the directory endpoint
    return the same table, whatever the file system held before, and so
    serialise it to the same bytes. *)
Theorem get_listed_corp_codes_deterministic unzip xml_parse to_csv api out w1 w2 d1 d2 w1' w2' :
  http w1 (corp_code_url api) = http w2 (corp_code_url api) ->
  get_listed_corp_codes unzip xml_parse to_csv api out w1 = (Ret d1, w1') ->
  get_listed_corp_codes unzip xml_parse to_csv api out w2 = (Ret d2, w2') ->
  d1 = d2 /\ to_csv d1 false = to_csv d2 false.
Proof.
  intros Hh H1 H2.
  apply get_listed_corp_codes_ret in H1. apply get_listed_corp_codes_ret in H2.
  assert (d1 = d2) as -> by congruence. split; reflexivity.
Qed.

Lemma get_listed_corp_codes_deterministic_witness :
  let run w := get_listed_corp_codes Fixture.unzip_one Fixture.parse_root5 Fixture.csv_of
                 (str "KEY") (str "data/raw") w in
  collect_listed Fixture.root5 = collect_listed Fixture.root5 /\
  Fixture.csv_of (collect_listed Fixture.root5) false = Fixture.csv_of (collect_listed Fixture.root5) false.
Proof.
  intros run.
  apply (get_listed_corp_codes_deterministic Fixture.unzip_one Fixture.parse_root5 Fixture.csv_of
           (str "KEY") (str "data/raw") Fixture.w_ok Fixture.w_ok_stale
           (collect_listed Fixture.root5) (collect_listed Fixture.root5)
           (snd (run Fixture.w_ok)) (snd (run Fixture.w_ok_stale))).
  - reflexivity.
  - vm_compute. reflexivity.
  - vm_compute. reflexivity.
Defined.


Lemma raises_only_ret {A} P (a : A) : raises_only P (ret a).
Proof. intros w e w' H; discriminate. Qed.

Lemma raises_only_raise {A} (P : exn -> Prop) e : P e -> raises_only P (@raise A e).
Proof. intros He w e' w' H; inversion H; subst; exact He. Qed.

Lemma raises_only_print P m : raises_only P (print m).
Proof. intros w e w' H; discriminate. Qed.

Lemma raises_only_get_world P : raises_only P get_world.
Proof. intros w e w' H; discriminate. Qed.

Lemma raises_only_bind {A B} P (m : M A) (f : A -> M B) :
  raises_only P m -> (forall a, raises_only P (f a)) -> raises_only P (bind m f).
Proof.
  intros Hm Hf w e w'. unfold bind.
  destruct (m w) as [[a|e'] w1] eqn:E; intros H.
  - exact (Hf a _ _ _ H).
  - inversion H; subst. exact (Hm _ _ _ E).
Qed.

(** What escapes a [try] is what the body raises outside the selector, or
    what the handler raises. *)
Lemma raises_only_catch {A} (P Q : exn -> Prop) (m : M A) sel h :
  raises_only Q m ->
  (forall e, Q e -> sel e = false -> P e) ->
  (forall e, Q e -> sel e = true -> raises_only P (h e)) ->
  raises_only P (catch m sel h).
Proof.
  intros Hm HQ Hh w e w'. unfold catch.
  destruct (m w) as [[a|e'] w1] eqn:E; intros H; [discriminate|].
  destruct (sel e') eqn:Es.
  - exact (Hh e' (Hm _ _ _ E) Es _ _ _ H).
  - inversion H; subst. exact (HQ e (Hm _ _ _ E) Es).
Qed.


(** An [OSError] of the file system. *)
Definition fs_error (e : exn) : Prop :=
  match e with
  | FileNotFoundError _ | FileExistsError _ | NotADirectoryError _
  | IsADirectoryError _ | PermissionError _ => True
  | _ => False
  end.


Lemma raises_only_mkdir p : raises_only fs_error (mkdir p).
Proof.
  intros w e w'. unfold mkdir.
  destruct p as [|c p]; [intros H; inversion H; exact I|].
  destruct (path_exists (fs w) (c :: p)); [intros H; inversion H; exact I|].
  destruct (parent_check (fs w) (dirname (norm_dir (c :: p))) (c :: p)) as [e'|] eqn:E;
    [|discriminate].
  intros H; inversion H; subst. unfold parent_check in E.
  repeat match goal with
         | E : context [match ?x with _ => _ end] |- _ => destruct x
         end; inversion E; exact I.
Qed.

#[local] Hint Resolve raises_only_ret raises_only_print raises_only_get_world
  raises_only_bind raises_only_mkdir : frame.

Lemma raises_only_try_mkdir q :
  raises_only fs_error
    (catch (mkdir q) is_os_error
       (fun e => w <- get_world ;; if isdir (fs w) q then ret tt else raise e)).
Proof.
  apply (raises_only_catch _ fs_error); [apply raises_only_mkdir | tauto |].
  intros e He _. apply raises_only_bind; [apply raises_only_get_world|].
  intros w; destruct (isdir (fs w) q); [apply raises_only_ret | apply raises_only_raise; exact He].
Qed.

Lemma raises_only_makedirs_fuel n p : raises_only fs_error (makedirs_fuel n p).
Proof.
  revert p; induction n as [|n IH]; intros p; [apply raises_only_try_mkdir|]. simpl.
  destruct (path_split p) as [head tail].
  destruct (match tail with [] => path_split head | _ => (head, tail) end) as [h t].
  apply raises_only_bind; [apply raises_only_get_world|]. intros w.
  destruct h as [|x h]; [apply raises_only_try_mkdir|].
  destruct t as [|y t]; [apply raises_only_try_mkdir|].
  destruct (negb (path_exists (fs w) (x :: h))); [|apply raises_only_try_mkdir].
  apply raises_only_bind.
  - apply (raises_only_catch _ fs_error); [apply IH | tauto |].
    intros e _ _; apply raises_only_ret.
  - intros []; destruct (pystr_eqb (y :: t) cur_dir);
      [apply raises_only_ret | apply raises_only_try_mkdir].
Qed.

Lemma raises_only_makedirs p : raises_only fs_error (makedirs p).
Proof. apply raises_only_makedirs_fuel. Qed.

Lemma raises_only_open_wb p : raises_only fs_error (open_wb p).
Proof.
  intros w e w'. unfold open_wb.
  destruct p as [|c p]; [intros H; inversion H; exact I|].
  destruct (ends_with_slash (c :: p) || isdir (fs w) (c :: p)); [intros H; inversion H; exact I|].
  destruct (parent_check (fs w) (dirname (c :: p)) (c :: p)) as [e'|] eqn:E; [|discriminate].
  intros H; inversion H; subst. unfold parent_check in E.
  repeat match goal with
         | E : context [match ?x with _ => _ end] |- _ => destruct x
         end; inversion E; exact I.
Qed.

Lemma raises_only_append_file P p b : raises_only P (append_file p b).
Proof. intros w e w' H; discriminate. Qed.

Lemma raises_only_write_file p b : raises_only fs_error (write_file p b).
Proof.
  apply raises_only_bind; [apply raises_only_open_wb | intros; apply raises_only_append_file].
Qed.


Lemma raises_only_save_df_to_csv to_csv d p index : raises_only fs_error (save_df_to_csv to_csv d p index).
Proof.
  apply raises_only_bind; [apply raises_only_makedirs|]. intros _.
  apply (raises_only_catch _ fs_error); [apply raises_only_write_file | intros e _ Hs; discriminate Hs |].
  intros; apply raises_only_print.
Qed.



Lemma request_block_ok url w status chunks err :
  http w url = Resp status chunks err ->
  (400 <=? status)%Z && (status <? 600)%Z = false ->
  catch (response <- requests_get url ;; raise_for_status response ;; ret (Some response))
        is_request_exception (fun e => print (MFetchCodesError e) ;; ret None) w
  = (Ret (Some (Resp status chunks err)), w).
Proof.
  intros Hh Hs. cbv [catch requests_get bind get_world]. rewrite Hh.
  cbv [raise_for_status ret]. cbv beta iota. rewrite Hs. reflexivity.
Qed.

Lemma write_chunks_ret p cs w : exists w', write_chunks p cs w = (Ret tt, w').
Proof.
  revert w; induction cs as [|c cs IH]; intros w; [eexists; reflexivity|].
  simpl. unfold bind at 1, append_file at 1. apply IH.
Qed.

(** Runs the statement at the head of the goal, [bind m f w], when [H]
    gives the outcome of [m] at [w]. *)
Ltac run_with H :=
  match goal with
  | |- context [bind ?m ?f ?w] =>
      first [ rewrite (bind_ret m f w _ _ H) | rewrite (bind_raise m f w _ _ H) ]; cbv beta iota zeta
  end.

(** Runs the head statement when it may raise a file-system error:
    either the goal's right disjunct holds, or the run continues. *)
Ltac run_fs m Hraises :=
  match goal with
  | |- context [bind m ?f ?w] =>
      let E := fresh "E" in let w' := fresh "w" in let e := fresh "e" in
      destruct (m w) as [[[]|e] w'] eqn:E;
      [ run_with E
      | run_with E; exists e, w'; split; [reflexivity | right; exact (Hraises _ _ _ E)] ]
  end.












(* ------------------------------------------------------------------ *)
(** * Further properties of the module *)

(** ** [posixpath]: the paths the loaders build *)

Lemma span_tail_noslash_app b r :
  forallb (fun c => negb (is_slash c)) b = true ->
  span_tail (b ++ r) = (b ++ fst (span_tail r), snd (span_tail r)).
Proof.
  induction b as [|c b IH]; simpl; intros H.
  - destruct (span_tail r); reflexivity.
  - apply andb_prop in H as [H1 H2]. destruct (is_slash c); [discriminate|].
    rewrite (IH H2). reflexivity.
Qed.

Lemma rev_ends_with_slash a :
  ends_with_slash a = true -> exists r, rev a = slash :: r.
Proof.
  unfold ends_with_slash. destruct (rev a) as [|c r]; [discriminate|].
  unfold is_slash. intros H; apply N.eqb_eq in H; subst; eauto.
Qed.

Lemma path_join_nil_l b : path_join [] b = b.
Proof. unfold path_join. destruct b as [|c b]; [reflexivity|]. destruct (is_slash c); reflexivity. Qed.

Lemma path_join_noslash a b :
  b <> [] -> forallb (fun c => negb (is_slash c)) b = true -> a <> [] ->
  path_join a b = if ends_with_slash a then a ++ b else a ++ [slash] ++ b.
Proof.
  intros Hb Hs Ha. unfold path_join.
  destruct b as [|c b]; [contradiction|]. simpl in Hs. apply andb_prop in Hs as [Hc _].
  destruct (is_slash c); [discriminate|]. destruct a; [contradiction | reflexivity].
Qed.

(** The file paths of both loaders are [os.path.join(output_dir, name)] for
    a name without a slash; [os.path.dirname] of such a path is
    [output_dir] itself, trailing slashes removed, and [''] for the
    empty [output_dir]. So the [os.makedirs] in [save_df_to_csv] is
    always called on the output directory. *)
Theorem dirname_path_join out name :
  name <> [] -> forallb (fun c => negb (is_slash c)) name = true ->
  dirname (path_join out name) = norm_dir out.
Proof.
  intros Hn Hs. destruct out as [|x out].
  - rewrite path_join_nil_l, dirname_no_slash by exact Hs. reflexivity.
  - assert (Hrs : forallb (fun c => negb (is_slash c)) (rev name) = true) by (rewrite forallb_rev; exact Hs).
    rewrite path_join_noslash by (assumption || discriminate).
    unfold dirname, path_split, norm_dir.
    destruct (ends_with_slash (x :: out)) eqn:Ee.
    + destruct (rev_ends_with_slash _ Ee) as [r Hr].
      rewrite rev_app_distr, Hr, span_tail_noslash_app by exact Hrs.
      change (span_tail (slash :: r)) with (@nil N, slash :: r).
      rewrite <- Hr. cbn [fst snd]. rewrite rev_involutive.
      destruct (all_slashes (x :: out)); reflexivity.
    + replace (rev ((x :: out) ++ [slash] ++ name)) with (rev name ++ slash :: rev (x :: out))
        by (rewrite !rev_app_distr, <- app_assoc; reflexivity).
      rewrite span_tail_noslash_app by exact Hrs.
      change (span_tail (slash :: rev (x :: out))) with (@nil N, slash :: rev (x :: out)).
      cbn [fst snd]. change (rev (slash :: rev (x :: out))) with (rev (rev (x :: out)) ++ [slash]).
      assert (Ha : all_slashes (x :: out) = false).
      { unfold all_slashes. rewrite <- forallb_rev. unfold ends_with_slash in Ee.
        destruct (rev (x :: out)) as [|c r] eqn:Er; 
          [apply (f_equal (@List.length N)) in Er; rewrite length_rev in Er; discriminate|].
        simpl. rewrite Ee. reflexivity. }
      unfold all_slashes in *. rewrite rev_involutive, forallb_app, Ha. simpl.
      unfold rstrip_slashes. change (x :: out ++ [slash]) with ((x :: out) ++ [slash]).
      rewrite rev_app_distr. reflexivity.
Qed.

Lemma dirname_path_join_witness :
  str "kospi_company_info.csv" <> [] /\
  forallb (fun c => negb (is_slash c)) (str "kospi_company_info.csv") = true /\
  dirname (path_join (str "data/raw/") (str "kospi_company_info.csv")) = str "data/raw".
Proof.
  split; [discriminate|]. split; [reflexivity|].
  rewrite (dirname_path_join (str "data/raw/") (str "kospi_company_info.csv")).
  - reflexivity.
  - discriminate.
  - reflexivity.
Defined.

(** ** [os.makedirs(name, exist_ok=True)] *)

Lemma pystr_eqb_neq a b : a <> b -> pystr_eqb a b = false.
Proof. intros H. destruct (pystr_eqb a b) eqn:E; [apply pystr_eqb_eq in E; contradiction | reflexivity]. Qed.

Lemma bind_get_world {A} (f : world -> M A) w : bind get_world f w = f w w.
Proof. reflexivity. Qed.

Lemma mem_In p l : mem p l = true <-> In p l.
Proof.
  unfold mem. rewrite existsb_exists. split.
  - intros (x & Hx & He). apply pystr_eqb_eq in He; subst; exact Hx.
  - intros H; exists p; split; [exact H | apply pystr_eqb_refl].
Qed.

Lemma path_split_tail_nonempty name :
  name <> [] -> ends_with_slash name = false -> snd (path_split name) <> [].
Proof.
  intros Hn He. unfold path_split. unfold ends_with_slash in He.
  destruct (rev name) as [|c r] eqn:Er.
  - apply (f_equal (@List.length N)) in Er. rewrite length_rev in Er.
    destruct name; [contradiction | discriminate].
  - simpl. rewrite He. destruct (span_tail r) as [t h]. simpl.
    intros H. apply (f_equal (@List.length N)) in H.
    rewrite ?length_rev, ?length_app in H; simpl in H; lia.
Qed.

(** The last step of [os.makedirs]: [mkdir(name)], an [OSError] being
    swallowed when [name] is then a directory. *)
Lemma try_mkdir_ret q w w' :
  catch (mkdir q) is_os_error
    (fun e => w0 <- get_world ;; if isdir (fs w0) q then ret tt else raise e) w = (Ret tt, w') ->
  isdir (fs w') q = true.
Proof.
  unfold catch. destruct (mkdir q w) as [[[]|e] w1] eqn:Em.
  - intros H; inversion H; subst w1; clear H. unfold mkdir in Em.
    destruct q as [|c q]; [discriminate|].
    destruct (path_exists (fs w) (c :: q)); [discriminate|].
    destruct (parent_check (fs w) (dirname (norm_dir (c :: q))) (c :: q)); [discriminate|].
    inversion Em; subst. unfold isdir, mem; simpl. rewrite pystr_eqb_refl. reflexivity.
  - destruct (is_os_error e); [|discriminate].
    rewrite bind_get_world. destruct (isdir (fs w1) q) eqn:Ed; intros H; inversion H; subst; exact Ed.
Qed.

(** When [name] does not end with a slash and its parent exists, the
    recursion of [os.makedirs] is skipped: it is [mkdir(name)] alone. *)
Lemma makedirs_parent_exists name w :
  name <> [] -> ends_with_slash name = false ->
  (dirname name = [] \/ path_exists (fs w) (dirname name) = true) ->
  makedirs name w =
  catch (mkdir name) is_os_error
    (fun e => w0 <- get_world ;; if isdir (fs w0) name then ret tt else raise e) w.
Proof.
  intros Hn He Hp. pose proof (path_split_tail_nonempty name Hn He) as Ht.
  unfold dirname in Hp. unfold makedirs. generalize (List.length name) as n; intros n.
  cbn [makedirs_fuel].
  destruct (path_split name) as [head tail]. simpl in Ht, Hp.
  destruct tail as [|y t]; [contradiction|].
  rewrite bind_get_world.
  destruct head as [|x h]; [reflexivity|].
  destruct Hp as [Hp|Hp]; [discriminate|]. rewrite Hp. reflexivity.
Qed.

(** [os.makedirs(name, exist_ok=True)] when [name] is already there and
    its parent exists: an existing directory is left as it is and the
    call returns; an existing regular file is not accepted, and the call
    raises [FileExistsError]. Neither case changes the world. *)
Theorem makedirs_exist_ok name w :
  name <> [] -> ends_with_slash name = false ->
  (dirname name = [] \/ path_exists (fs w) (dirname name) = true) ->
  (isdir (fs w) name = true -> makedirs name w = (Ret tt, w)) /\
  (isdir (fs w) name = false -> isfile (fs w) name = true ->
     makedirs name w = (Raise (FileExistsError name), w)).
Proof.
  intros Hn He Hp. rewrite (makedirs_parent_exists name w Hn He Hp).
  unfold catch, mkdir. destruct name as [|c name]; [contradiction|].
  unfold path_exists. cbv beta iota zeta. split.
  - intros Hd. rewrite Hd, orb_true_l. cbn [is_os_error]. rewrite bind_get_world, Hd. reflexivity.
  - intros Hd Hf. rewrite Hd, Hf, orb_true_r. cbn [is_os_error]. rewrite bind_get_world, Hd.
    reflexivity.
Qed.

Lemma makedirs_exist_ok_witness :
  (str "data/raw" <> [] /\ ends_with_slash (str "data/raw") = false /\
   (dirname (str "data/raw") = [] \/ path_exists (fs Fixture.w_ok_stale) (dirname (str "data/raw")) = true)) /\
  makedirs (str "data/raw") Fixture.w_ok_stale = (Ret tt, Fixture.w_ok_stale) /\
  makedirs (str "data/raw/listed_corp_codes.csv") Fixture.w_ok_stale
  = (Raise (FileExistsError (str "data/raw/listed_corp_codes.csv")), Fixture.w_ok_stale).
Proof.
  split; [split; [discriminate | split; [reflexivity | right; reflexivity]]|]. split.
  - apply (proj1 (makedirs_exist_ok (str "data/raw") Fixture.w_ok_stale ltac:(discriminate)
                   eq_refl (or_intror eq_refl))).
    reflexivity.
  - apply (proj2 (makedirs_exist_ok (str "data/raw/listed_corp_codes.csv") Fixture.w_ok_stale
                   ltac:(discriminate) eq_refl (or_intror eq_refl))); reflexivity.
Defined.

Lemma makedirs_ret_dir name w w' :
  makedirs_tail name <> cur_dir ->
  makedirs name w = (Ret tt, w') -> isdir (fs w') name = true.
Proof.
  intros Ht H. unfold makedirs in H. revert H. generalize (List.length name) as n. intros n H.
  cbn [makedirs_fuel] in H. unfold makedirs_tail in Ht.
  destruct (path_split name) as [head tail].
  assert (Hgo : forall h t, t <> cur_dir ->
            (w0 <- get_world ;;
             match h, t with
             | _ :: _, _ :: _ =>
                 if negb (path_exists (fs w0) h) then
                   catch (makedirs_fuel n h) is_file_exists (fun _ => ret tt) ;;
                   if pystr_eqb t cur_dir then ret tt
                   else catch (mkdir name) is_os_error
                          (fun e => w1 <- get_world ;; if isdir (fs w1) name then ret tt else raise e)
                 else catch (mkdir name) is_os_error
                        (fun e => w1 <- get_world ;; if isdir (fs w1) name then ret tt else raise e)
             | _, _ => catch (mkdir name) is_os_error
                         (fun e => w1 <- get_world ;; if isdir (fs w1) name then ret tt else raise e)
             end) w = (Ret tt, w') -> isdir (fs w') name = true).
  { clear H Ht. intros h t Ht H. rewrite bind_get_world in H.
    destruct h as [|x h]; [exact (try_mkdir_ret _ _ _ H)|].
    destruct t as [|y t]; [exact (try_mkdir_ret _ _ _ H)|].
    destruct (negb (path_exists (fs w) (x :: h))); [|exact (try_mkdir_ret _ _ _ H)].
    apply bind_ret_inv in H as ([] & w1 & _ & H).
    rewrite (pystr_eqb_neq _ _ Ht) in H. exact (try_mkdir_ret _ _ _ H). }
  destruct tail as [|y t].
  - destruct (path_split head) as [h t]. exact (Hgo h t Ht H).
  - exact (Hgo head (y :: t) Ht H).
Qed.

(** After [os.makedirs(name, exist_ok=True)] returns, [name] is a
    directory, for every [name] whose last component is not ['.'] (the
    one case in which the code returns before its final [mkdir]). *)
Theorem makedirs_ret_isdir name w w' :
  makedirs_tail name <> cur_dir ->
  makedirs name w = (Ret tt, w') -> isdir (fs w') name = true.
Proof. exact (makedirs_ret_dir name w w'). Qed.

(** Two missing levels, [data/new] and [data/new/sub], are created. *)
Lemma makedirs_ret_isdir_witness :
  makedirs_tail (str "data/new/sub") <> cur_dir /\
  isdir (fs (snd (makedirs (str "data/new/sub") Fixture.w0))) (str "data/new/sub") = true.
Proof.
  split; [vm_compute; discriminate|].
  apply (makedirs_ret_isdir (str "data/new/sub") Fixture.w0).
  - vm_compute; discriminate.
  - vm_compute. reflexivity.
Defined.

(** ** Frames: which files and directories an operation may change *)

Lemma dirs_grow_ret {A} (a : A) : dirs_grow (ret a).
Proof. intros w o w' H; inversion H; subst; apply incl_refl. Qed.

Lemma dirs_grow_raise {A} e : dirs_grow (@raise A e).
Proof. intros w o w' H; inversion H; subst; apply incl_refl. Qed.

Lemma dirs_grow_get_world : dirs_grow get_world.
Proof. intros w o w' H; inversion H; subst; apply incl_refl. Qed.

Lemma dirs_grow_bind {A B} (m : M A) (f : A -> M B) :
  dirs_grow m -> (forall a, dirs_grow (f a)) -> dirs_grow (bind m f).
Proof.
  intros Hm Hf w o w'. unfold bind.
  destruct (m w) as [[a|e] w1] eqn:E; intros H.
  - exact (incl_tran (Hm _ _ _ E) (Hf a _ _ _ H)).
  - inversion H; subst. exact (Hm _ _ _ E).
Qed.

Lemma dirs_grow_catch {A} (m : M A) sel h :
  dirs_grow m -> (forall e, dirs_grow (h e)) -> dirs_grow (catch m sel h).
Proof.
  intros Hm Hh w o w'. unfold catch.
  destruct (m w) as [[a|e] w1] eqn:E; intros H.
  - inversion H; subst. exact (Hm _ _ _ E).
  - destruct (sel e).
    + exact (incl_tran (Hm _ _ _ E) (Hh e _ _ _ H)).
    + inversion H; subst. exact (Hm _ _ _ E).
Qed.

Lemma dirs_grow_mkdir p : dirs_grow (mkdir p).
Proof.
  intros w o w'. unfold mkdir.
  destruct p as [|c p]; [intros H; inversion H; subst; apply incl_refl|].
  destruct (path_exists (fs w) (c :: p)); [intros H; inversion H; subst; apply incl_refl|].
  destruct (parent_check (fs w) (dirname (norm_dir (c :: p))) (c :: p));
    intros H; inversion H; subst; [apply incl_refl | apply incl_tl, incl_refl].
Qed.

#[local] Hint Resolve dirs_grow_ret dirs_grow_raise dirs_grow_get_world dirs_grow_bind
  dirs_grow_catch dirs_grow_mkdir : frame.

Lemma dirs_grow_makedirs_fuel n p : dirs_grow (makedirs_fuel n p).
Proof.
  revert p; induction n as [|n IH]; intros p; simpl.
  - apply dirs_grow_catch; auto with frame.
    intros e; apply dirs_grow_bind; auto with frame.
    intros w; destruct (isdir (fs w) p); auto with frame.
  - destruct (path_split p) as [head tail].
    destruct (match tail with [] => path_split head | _ => (head, tail) end) as [h t].
    apply dirs_grow_bind; auto with frame. intros w.
    assert (Hm : dirs_grow (catch (mkdir p) is_os_error
                   (fun e => w0 <- get_world ;; if isdir (fs w0) p then ret tt else raise e))).
    { apply dirs_grow_catch; auto with frame.
      intros e; apply dirs_grow_bind; auto with frame.
      intros w0; destruct (isdir (fs w0) p); auto with frame. }
    destruct h as [|x h]; [exact Hm|]. destruct t as [|y t]; [exact Hm|].
    destruct (negb (path_exists (fs w) (x :: h))); [|exact Hm].
    apply dirs_grow_bind; [apply dirs_grow_catch; auto with frame|].
    intros []; destruct (pystr_eqb (y :: t) cur_dir); auto with frame.
Qed.

Lemma dirs_grow_makedirs p : dirs_grow (makedirs p).
Proof. apply dirs_grow_makedirs_fuel. Qed.

Lemma isdir_incl f f' p :
  incl (dirs f) (dirs f') -> isdir f p = true -> isdir f' p = true.
Proof.
  unfold isdir. destruct p as [|c p]; [discriminate|].
  rewrite !mem_In. intros Hi Hp. exact (Hi _ Hp).
Qed.

Lemma files_frame_ret {A} ps (a : A) : files_frame ps (ret a).
Proof. intros w o w' q H _; inversion H; reflexivity. Qed.

Lemma files_frame_raise {A} ps e : files_frame ps (@raise A e).
Proof. intros w o w' q H _; inversion H; reflexivity. Qed.

Lemma files_frame_get_world ps : files_frame ps get_world.
Proof. intros w o w' q H _; inversion H; reflexivity. Qed.

Lemma files_frame_print ps m : files_frame ps (print m).
Proof. intros w o w' q H _; inversion H; reflexivity. Qed.

Lemma files_frame_time_sleep ps n : files_frame ps (time_sleep n).
Proof. intros w o w' q H _; inversion H; reflexivity. Qed.

Lemma files_frame_bind {A B} ps (m : M A) (f : A -> M B) :
  files_frame ps m -> (forall a, files_frame ps (f a)) -> files_frame ps (bind m f).
Proof.
  intros Hm Hf w o w' q. unfold bind.
  destruct (m w) as [[a|e] w1] eqn:E; intros H Hq.
  - rewrite (Hf a _ _ _ _ H Hq). exact (Hm _ _ _ _ E Hq).
  - inversion H; subst. exact (Hm _ _ _ _ E Hq).
Qed.

Lemma files_frame_catch {A} ps (m : M A) sel h :
  files_frame ps m -> (forall e, files_frame ps (h e)) -> files_frame ps (catch m sel h).
Proof.
  intros Hm Hh w o w' q. unfold catch.
  destruct (m w) as [[a|e] w1] eqn:E; intros H Hq.
  - inversion H; subst. exact (Hm _ _ _ _ E Hq).
  - destruct (sel e).
    + rewrite (Hh e _ _ _ _ H Hq). exact (Hm _ _ _ _ E Hq).
    + inversion H; subst. exact (Hm _ _ _ _ E Hq).
Qed.

Lemma files_frame_dirs_only {A} ps (m : M A) : dirs_only m -> files_frame ps m.
Proof. intros Hm w o w' q H _. destruct (Hm _ _ _ H) as [Hf _]. rewrite Hf. reflexivity. Qed.

Lemma files_frame_open_wb ps p : In p ps -> files_frame ps (open_wb p).
Proof.
  intros Hp w o w' q. unfold open_wb.
  destruct p as [|c p]; [intros H _; inversion H; reflexivity|].
  destruct (ends_with_slash (c :: p) || isdir (fs w) (c :: p)); [intros H _; inversion H; reflexivity|].
  destruct (parent_check (fs w) (dirname (c :: p)) (c :: p));
    intros H Hq; inversion H; subst; [reflexivity|].
  simpl. apply file_lookup_set_other. intros ->; contradiction.
Qed.

Lemma files_frame_append_file ps p b : In p ps -> files_frame ps (append_file p b).
Proof.
  intros Hp w o w' q H Hq. unfold append_file in H. inversion H; subst; simpl.
  apply file_lookup_set_other. intros ->; contradiction.
Qed.

Lemma files_frame_read_file ps p : files_frame ps (read_file p).
Proof.
  intros w o w' q. unfold read_file.
  destruct (file_lookup p (files (fs w))); [|destruct (isdir (fs w) p)];
    intros H _; inversion H; reflexivity.
Qed.

Lemma files_frame_write_chunks ps p cs : In p ps -> files_frame ps (write_chunks p cs).
Proof.
  intros Hp. induction cs as [|c cs IH]; simpl; [apply files_frame_ret|].
  apply files_frame_bind; [apply files_frame_append_file, Hp | intros; exact IH].
Qed.

(** Decomposes a goal [files_frame ps m] along the structure of [m]. *)
Ltac frame_files :=
  repeat match goal with
  | |- forall _, _ => intro; cbv beta
  | |- files_frame _ (bind _ _) => apply files_frame_bind
  | |- files_frame _ (catch _ _ _) => apply files_frame_catch
  | |- files_frame _ (ret _) => apply files_frame_ret
  | |- files_frame _ (raise _) => apply files_frame_raise
  | |- files_frame _ (print _) => apply files_frame_print
  | |- files_frame _ get_world => apply files_frame_get_world
  | |- files_frame _ (time_sleep _) => apply files_frame_time_sleep
  | |- files_frame _ (makedirs _) => apply files_frame_dirs_only, dirs_only_makedirs
  | |- files_frame _ (read_file _) => apply files_frame_read_file
  | |- files_frame _ (open_wb _) => apply files_frame_open_wb; simpl; tauto
  | |- files_frame _ (append_file _ _) => apply files_frame_append_file; simpl; tauto
  | |- files_frame _ (write_chunks _ _) => apply files_frame_write_chunks; simpl; tauto
  | |- files_frame _ (write_file _ _) => unfold write_file
  | |- files_frame _ (match ?x with _ => _ end) => destruct x
  end.

Lemma files_frame_save_df_to_csv ps to_csv d p index :
  In p ps -> files_frame ps (save_df_to_csv to_csv d p index).
Proof. intros Hp. unfold save_df_to_csv. frame_files. Qed.

(** Distinct string literals are distinct paths. *)
Ltac neq_str := let H := fresh in intros H; apply pystr_eqb_eq in H; vm_compute in H; discriminate H.

(** ** [save_df_to_csv] *)

(** [save_df_to_csv(df, file_path)] writes no other file than
    [file_path]: every other file keeps its content, whether the call
    returns or raises. *)
Theorem save_df_to_csv_frame to_csv d p index w o w' q :
  save_df_to_csv to_csv d p index w = (o, w') -> q <> p ->
  file_lookup q (files (fs w')) = file_lookup q (files (fs w)).
Proof.
  intros H Hq. apply (files_frame_save_df_to_csv [p] to_csv d p index (or_introl eq_refl) w o w' q H).
  simpl. intros [Hp|[]]. apply Hq. symmetry. exact Hp.
Qed.

Lemma save_df_to_csv_frame_witness :
  file_lookup (str "data/raw/listed_corp_codes.csv")
    (files (fs (snd (save_df_to_csv Fixture.csv_of [] (str "data/raw/x.csv") false Fixture.w_ok_stale))))
  = Some [Byte.x00].
Proof.
  apply (save_df_to_csv_frame Fixture.csv_of [] (str "data/raw/x.csv") false Fixture.w_ok_stale
           (fst (save_df_to_csv Fixture.csv_of [] (str "data/raw/x.csv") false Fixture.w_ok_stale))).
  - apply surjective_pairing.
  - neq_str.
Defined.

(** [save_df_to_csv(df, file_path)] where [file_path] names an existing
    directory: once [os.makedirs] of its dirname returned, [open] raises
    [IsADirectoryError] inside the [try], the handler prints the
    diagnostic, and the call returns normally without writing anything. *)
Theorem save_df_to_csv_into_directory to_csv d p index w w1 :
  isdir (fs w) p = true -> makedirs (dirname p) w = (Ret tt, w1) ->
  save_df_to_csv to_csv d p index w = (Ret tt, snd (print (MSaveError p (IsADirectoryError p)) w1)).
Proof.
  intros Hd Hm. unfold save_df_to_csv. rewrite (bind_ret _ _ _ _ _ Hm).
  assert (Hd1 : isdir (fs w1) p = true)
    by exact (isdir_incl _ _ _ (dirs_grow_makedirs _ _ _ _ Hm) Hd).
  unfold catch, write_file, bind at 1, open_wb. destruct p as [|c p]; [discriminate|].
  cbv beta iota zeta. rewrite Hd1, orb_true_r. reflexivity.
Qed.

Lemma save_df_to_csv_into_directory_witness :
  save_df_to_csv Fixture.csv_of [] (str "data/raw") false Fixture.w0
  = (Ret tt, snd (print (MSaveError (str "data/raw") (IsADirectoryError (str "data/raw")))
                         (snd (makedirs (str "data") Fixture.w0)))).
Proof.
  apply save_df_to_csv_into_directory.
  - reflexivity.
  - vm_compute. reflexivity.
Defined.

Lemma save_df_to_csv_ret_inv to_csv d p index w w' :
  save_df_to_csv to_csv d p index w = (Ret tt, w') ->
  file_lookup p (files (fs w')) = Some (to_csv d index) \/
  exists e, stdout w' = stdout w ++ [MSaveError p e].
Proof.
  intros H. unfold save_df_to_csv in H.
  apply bind_ret_inv in H as ([] & w1 & Hm & H).
  destruct (dirs_only_makedirs _ _ _ _ Hm) as (_ & _ & Hs1 & _).
  unfold catch in H. destruct (write_file p (to_csv d index) w1) as [[[]|e] w2] eqn:Ew.
  - inversion H; subst. left. exact (write_file_lookup _ _ _ _ Ew).
  - cbn [is_exception] in H. rewrite print_spec in H. inversion H; subst; clear H.
    right. exists e. simpl. rewrite (write_file_stdout _ _ _ _ _ Ew), Hs1. reflexivity.
Qed.

(** ** The detail enricher [get_kospi_company_info] *)

Lemma row_get_missing r k w :
  has_col r k = false -> row_get r k w = (Raise (KeyError k), w).
Proof.
  unfold has_col, row_get.
  destruct (find (fun kv => pystr_eqb (fst kv) k) r) as [[k' v]|]; [discriminate | reflexivity].
Qed.

Lemma enrich_step_missing dart data r w :
  has_id_columns r = false ->
  enrich_step dart data r w =
  (Raise (KeyError (if has_col r (str "corp_code") then str "corp_name" else str "corp_code")), w).
Proof.
  unfold has_id_columns, enrich_step. destruct (has_col r (str "corp_code")) eqn:Ec; simpl; intros Hn.
  - rewrite (bind_ret _ _ _ _ _ (row_get_col r _ w Ec)).
    exact (bind_raise _ _ _ _ _ (row_get_missing r _ w Hn)).
  - exact (bind_raise _ _ _ _ _ (row_get_missing r _ w Ec)).
Qed.

(** A non-empty [corp_codes_df] without a [corp_code] or without a
    [corp_name] column (every row of a [DataFrame] has the frame's
    columns, so its first row lacks it too) stops the function at its
    first row: [row['corp_code']] and [row['corp_name']] are read before
    the [try], so the [KeyError] (for the first column missing) leaves
    the function before any lookup. Only the opening message was printed:
    no pause, no diagnostic, no file written, nothing returned. *)
Theorem get_kospi_company_info_missing_id_column to_csv dart r post out w :
  has_id_columns r = false ->
  Forall (fun r' => map fst r' = map fst r) post ->
  get_kospi_company_info to_csv dart (r :: post) out w =
  (Raise (KeyError (if has_col r (str "corp_code") then str "corp_name" else str "corp_code")),
   {| fs := fs w; stdout := stdout w ++ [MFetchingInfo]; sleeps := sleeps w; http := http w |}).
Proof.
  intros Hr _. unfold get_kospi_company_info.
  rewrite (bind_ret _ _ _ _ _ (print_spec _ _)).
  unfold bind at 1. cbn [enrich_loop]. unfold bind at 1. rewrite enrich_step_missing by exact Hr.
  reflexivity.
Qed.

(** A frame whose only column is [corp_code]. *)
Lemma get_kospi_company_info_missing_id_column_witness :
  has_id_columns Fixture.row_no_name = false /\
  Forall (fun r' => map fst r' = map fst Fixture.row_no_name) [Fixture.row_no_name] /\
  get_kospi_company_info Fixture.csv_of Fixture.dart5 [Fixture.row_no_name; Fixture.row_no_name]
    (str "data/raw") Fixture.w0
  = (Raise (KeyError (str "corp_name")),
     {| fs := fs Fixture.w0; stdout := [MFetchingInfo]; sleeps := []; http := http Fixture.w0 |}).
Proof.
  split; [reflexivity|]. split; [repeat constructor|].
  apply (get_kospi_company_info_missing_id_column Fixture.csv_of Fixture.dart5 Fixture.row_no_name
           [Fixture.row_no_name] (str "data/raw") Fixture.w0); [reflexivity | repeat constructor].
Defined.

(** With [output_dir = ''] the output path is the bare file name, whose
    dirname is empty: every lookup is made (with its pauses), then
    [os.makedirs('')] raises [FileNotFoundError] and the collected table
    is lost; no file is written and the closing message is not
    printed. *)
Theorem get_kospi_company_info_empty_output_dir to_csv dart rows w :
  forallb has_id_columns rows = true ->
  get_kospi_company_info to_csv dart rows [] w =
  (Raise (FileNotFoundError []),
   {| fs := fs w; stdout := stdout w ++ MFetchingInfo :: failure_msgs dart rows;
      sleeps := sleeps w ++ repeat 700%N (looked_up dart rows); http := http w |}).
Proof.
  intros Hall. unfold get_kospi_company_info.
  rewrite (bind_ret _ _ _ _ _ (print_spec _ _)).
  rewrite (bind_ret _ _ _ _ _ (enrich_loop_spec dart rows Hall _ _)).
  rewrite path_join_nil_l. unfold save_df_to_csv.
  rewrite (dirname_no_slash (str "kospi_company_info.csv")) by reflexivity.
  rewrite (bind_raise _ _ _ _ _ (bind_raise _ _ _ _ _ (makedirs_empty _))).
  cbn [fs stdout sleeps http]. rewrite <- app_assoc. reflexivity.
Qed.

Lemma get_kospi_company_info_empty_output_dir_witness :
  forallb has_id_columns Fixture.rows5 = true /\
  get_kospi_company_info Fixture.csv_of Fixture.dart5 Fixture.rows5 [] Fixture.w0 =
  (Raise (FileNotFoundError []),
   {| fs := fs Fixture.w0; stdout := stdout Fixture.w0 ++ MFetchingInfo :: failure_msgs Fixture.dart5 Fixture.rows5;
      sleeps := sleeps Fixture.w0 ++ repeat 700%N (looked_up Fixture.dart5 Fixture.rows5);
      http := http Fixture.w0 |}).
Proof.
  split; [reflexivity|]. apply get_kospi_company_info_empty_output_dir. reflexivity.
Defined.

(** A normal return of the enricher comes after the save: the file
    [output_dir/kospi_company_info.csv] holds the CSV of the returned
    table, or the write failed and its diagnostic was printed. Either
    way the last line printed is the "Saved n KOSPI company details"
    message with the table's length, also when the write failed. *)
Theorem get_kospi_company_info_saved to_csv dart rows out w d w' :
  get_kospi_company_info to_csv dart rows out w = (Ret d, w') ->
  (file_lookup (path_join out (str "kospi_company_info.csv")) (files (fs w')) = Some (to_csv d false) \/
   exists e pre, stdout w' = pre ++ [MSaveError (path_join out (str "kospi_company_info.csv")) e;
                                    MSavedInfo (List.length d) (path_join out (str "kospi_company_info.csv"))]) /\
  exists pre, stdout w' = pre ++ [MSavedInfo (List.length d) (path_join out (str "kospi_company_info.csv"))].
Proof.
  intros H. unfold get_kospi_company_info in H.
  apply bind_ret_inv in H as ([] & w1 & _ & H).
  apply bind_ret_inv in H as (data & w2 & _ & H).
  apply bind_ret_inv in H as ([] & w3 & Hs & H).
  rewrite (bind_ret _ _ _ _ _ (print_spec _ _)) in H. inversion H; subst d w'; clear H.
  simpl. split; [|eexists; reflexivity].
  destruct (save_df_to_csv_ret_inv _ _ _ _ _ _ Hs) as [Hf | [e He]]; [left; exact Hf|].
  right. exists e, (stdout w2). rewrite He, <- app_assoc. reflexivity.
Qed.

Lemma get_kospi_company_info_saved_witness :
  (file_lookup (str "data/raw/kospi_company_info.csv")
     (files (fs (snd (get_kospi_company_info Fixture.csv_of Fixture.dart5 Fixture.rows5 (str "data/raw") Fixture.w0))))
   = Some (Fixture.csv_of (kospi_rows Fixture.dart5 Fixture.rows5) false) \/
   exists e pre, stdout (snd (get_kospi_company_info Fixture.csv_of Fixture.dart5 Fixture.rows5 (str "data/raw") Fixture.w0))
     = pre ++ [MSaveError (str "data/raw/kospi_company_info.csv") e;
               MSavedInfo 2 (str "data/raw/kospi_company_info.csv")]) /\
  exists pre, stdout (snd (get_kospi_company_info Fixture.csv_of Fixture.dart5 Fixture.rows5 (str "data/raw") Fixture.w0))
     = pre ++ [MSavedInfo 2 (str "data/raw/kospi_company_info.csv")].
Proof.
  apply (get_kospi_company_info_saved Fixture.csv_of Fixture.dart5 Fixture.rows5 (str "data/raw") Fixture.w0
           (kospi_rows Fixture.dart5 Fixture.rows5)).
  vm_compute. reflexivity.
Defined.

Lemma files_frame_enrich_loop ps dart data rows : files_frame ps (enrich_loop dart data rows).
Proof.
  revert data; induction rows as [|r rows IH]; intros data; simpl; [apply files_frame_ret|].
  apply files_frame_bind; [|intros; apply IH].
  unfold enrich_step, row_get, company. frame_files.
Qed.

(** The enricher writes no other file than
    [output_dir/kospi_company_info.csv]. *)
Theorem get_kospi_company_info_frame to_csv dart rows out w o w' q :
  get_kospi_company_info to_csv dart rows out w = (o, w') ->
  q <> path_join out (str "kospi_company_info.csv") ->
  file_lookup q (files (fs w')) = file_lookup q (files (fs w)).
Proof.
  intros H Hq.
  assert (Hf : files_frame [path_join out (str "kospi_company_info.csv")]
                 (get_kospi_company_info to_csv dart rows out)).
  { unfold get_kospi_company_info. frame_files.
    - apply files_frame_enrich_loop.
    - apply files_frame_save_df_to_csv. left; reflexivity. }
  apply (Hf w o w' q H). simpl. intros [Hp|[]]. apply Hq. symmetry. exact Hp.
Qed.

Lemma get_kospi_company_info_frame_witness :
  file_lookup (str "data/raw/listed_corp_codes.csv")
    (files (fs (snd (get_kospi_company_info Fixture.csv_of Fixture.dart5 Fixture.rows5 (str "data/raw")
                       Fixture.w_ok_stale))))
  = Some [Byte.x00].
Proof.
  apply (get_kospi_company_info_frame Fixture.csv_of Fixture.dart5 Fixture.rows5 (str "data/raw")
           Fixture.w_ok_stale
           (fst (get_kospi_company_info Fixture.csv_of Fixture.dart5 Fixture.rows5 (str "data/raw")
                   Fixture.w_ok_stale))).
  - apply surjective_pairing.
  - neq_str.
Defined.

(** ** The code-directory fetcher [get_listed_corp_codes] *)

(** A normal return is either one of the early [return pd.DataFrame()]
    or the last statement, after [save_df_to_csv] returned and the
    closing message was printed. *)
Lemma get_listed_corp_codes_ret_saved unzip xml_parse to_csv api out w d w' :
  get_listed_corp_codes unzip xml_parse to_csv api out w = (Ret d, w') ->
  d = [] \/
  exists w1 w2,
    save_df_to_csv to_csv d (path_join out (str "listed_corp_codes.csv")) false w1 = (Ret tt, w2) /\
    w' = snd (print (MSavedCodes (List.length d) (path_join out (str "listed_corp_codes.csv"))) w2).
Proof.
  intros H. unfold get_listed_corp_codes in H.
  apply bind_ret_inv in H as ([] & w1 & _ & H).
  apply bind_ret_inv in H as ([response|] & w2 & _ & H); [|left; inversion H; reflexivity].
  cbv beta iota zeta in H.
  apply bind_ret_inv in H as ([] & w3 & _ & H).
  apply bind_ret_inv in H as ([] & w4 & _ & H).
  apply bind_ret_inv in H as ([] & w5 & _ & H).
  apply bind_ret_inv in H as ([|] & w6 & _ & H); simpl negb in H; [|left; inversion H; reflexivity].
  apply bind_ret_inv in H as ([root|] & w7 & _ & H); [|left; inversion H; reflexivity].
  apply bind_ret_inv in H as ([] & w8 & Hs & H).
  rewrite (bind_ret _ _ _ _ _ (print_spec _ _)) in H. inversion H; subst; clear H.
  right. exists w7, w8. split; [exact Hs | reflexivity].
Qed.

(** With [output_dir = ''] the table's path is the bare file name and
    [save_df_to_csv] raises [FileNotFoundError] from [os.makedirs('')]:
    a normal return of the fetcher always carries the empty table, and a
    run whose answer yields listed companies raises instead of returning
    them. *)
Theorem get_listed_corp_codes_empty_output_dir unzip xml_parse to_csv api w :
  (forall d w', get_listed_corp_codes unzip xml_parse to_csv api [] w = (Ret d, w') -> d = []) /\
  (expected_listed_codes unzip xml_parse (http w (corp_code_url api)) <> [] ->
   exists e w', get_listed_corp_codes unzip xml_parse to_csv api [] w = (Raise e, w')).
Proof.
  assert (Hret : forall d w', get_listed_corp_codes unzip xml_parse to_csv api [] w = (Ret d, w') -> d = []).
  { intros d w' H.
    destruct (get_listed_corp_codes_ret_saved _ _ _ _ _ _ _ _ H) as [Hd | (w1 & w2 & Hs & _)]; [exact Hd|].
    rewrite path_join_nil_l in Hs. unfold save_df_to_csv in Hs.
    rewrite (dirname_no_slash (str "listed_corp_codes.csv")) in Hs by reflexivity.
    rewrite (bind_raise _ _ _ _ _ (makedirs_empty _)) in Hs. discriminate. }
  split; [exact Hret|]. intros Hne.
  case_eq (get_listed_corp_codes unzip xml_parse to_csv api [] w); intros [d|e] w' E; [|eauto].
  exfalso. apply Hne. rewrite <- (get_listed_corp_codes_ret _ _ _ _ _ _ _ _ E). exact (Hret _ _ E).
Qed.

Lemma get_listed_corp_codes_empty_output_dir_witness :
  expected_listed_codes Fixture.unzip_one Fixture.parse_root5 (http Fixture.w_ok (corp_code_url (str "KEY"))) <> [] /\
  exists e w', get_listed_corp_codes Fixture.unzip_one Fixture.parse_root5 Fixture.csv_of (str "KEY") []
                 Fixture.w_ok = (Raise e, w').
Proof.
  split; [vm_compute; discriminate|].
  apply (proj2 (get_listed_corp_codes_empty_output_dir Fixture.unzip_one Fixture.parse_root5 Fixture.csv_of
                  (str "KEY") Fixture.w_ok)).
  vm_compute; discriminate.
Defined.

(** A non-empty table returned by the fetcher has been saved:
    [output_dir/listed_corp_codes.csv] holds its CSV, or the write failed
    and its diagnostic was printed. Either way the last line printed is
    the "Saved n listed corporation codes" message with the table's
    length, also when the write failed. *)
Theorem get_listed_corp_codes_saved unzip xml_parse to_csv api out w d w' :
  get_listed_corp_codes unzip xml_parse to_csv api out w = (Ret d, w') -> d <> [] ->
  (file_lookup (path_join out (str "listed_corp_codes.csv")) (files (fs w')) = Some (to_csv d false) \/
   exists e pre, stdout w' = pre ++ [MSaveError (path_join out (str "listed_corp_codes.csv")) e;
                                    MSavedCodes (List.length d) (path_join out (str "listed_corp_codes.csv"))]) /\
  exists pre, stdout w' = pre ++ [MSavedCodes (List.length d) (path_join out (str "listed_corp_codes.csv"))].
Proof.
  intros H Hne.
  destruct (get_listed_corp_codes_ret_saved _ _ _ _ _ _ _ _ H) as [Hd | (w1 & w2 & Hs & ->)];
    [contradiction|].
  simpl. split; [|eexists; reflexivity].
  destruct (save_df_to_csv_ret_inv _ _ _ _ _ _ Hs) as [Hf | [e He]]; [left; exact Hf|].
  right. exists e, (stdout w1). rewrite He, <- app_assoc. reflexivity.
Qed.

Lemma get_listed_corp_codes_saved_witness :
  file_lookup (str "data/raw/listed_corp_codes.csv")
    (files (fs (snd (get_listed_corp_codes Fixture.unzip_one Fixture.parse_root5 Fixture.csv_of
                       (str "KEY") (str "data/raw") Fixture.w_ok))))
  = Some (Fixture.csv_of (collect_listed Fixture.root5) false) \/
  (exists e pre, stdout (snd (get_listed_corp_codes Fixture.unzip_one Fixture.parse_root5 Fixture.csv_of
                               (str "KEY") (str "data/raw") Fixture.w_ok))
     = pre ++ [MSaveError (str "data/raw/listed_corp_codes.csv") e;
               MSavedCodes 3 (str "data/raw/listed_corp_codes.csv")]).
Proof.
  refine (proj1 (get_listed_corp_codes_saved Fixture.unzip_one Fixture.parse_root5 Fixture.csv_of
                   (str "KEY") (str "data/raw") Fixture.w_ok (collect_listed Fixture.root5) _ _ _)).
  - vm_compute. reflexivity.
  - vm_compute. discriminate.
Defined.

(** The fetcher writes no other files than the archive and the extracted
    XML under [output_dir/dart_corp_data] and the table
    [output_dir/listed_corp_codes.csv]. *)
Theorem get_listed_corp_codes_frame unzip xml_parse to_csv api out w o w' q :
  get_listed_corp_codes unzip xml_parse to_csv api out w = (o, w') ->
  ~ In q [path_join (path_join out (str "dart_corp_data")) (str "CORPCODE.zip");
          path_join (path_join out (str "dart_corp_data")) (str "CORPCODE.xml");
          path_join out (str "listed_corp_codes.csv")] ->
  file_lookup q (files (fs w')) = file_lookup q (files (fs w)).
Proof.
  intros H Hq.
  assert (Hf : files_frame [path_join (path_join out (str "dart_corp_data")) (str "CORPCODE.zip");
                            path_join (path_join out (str "dart_corp_data")) (str "CORPCODE.xml");
                            path_join out (str "listed_corp_codes.csv")]
                 (get_listed_corp_codes unzip xml_parse to_csv api out)).
  { unfold get_listed_corp_codes, requests_get, raise_for_status, iter_content_into, zipfile_open,
      zip_extract, et_parse, save_df_to_csv.
    cbv zeta. frame_files. }
  exact (Hf w o w' q H Hq).
Qed.

Lemma get_listed_corp_codes_frame_witness :
  file_lookup (str "data/raw/kospi_company_info.csv")
    (files (fs (snd (get_listed_corp_codes Fixture.unzip_one Fixture.parse_root5 Fixture.csv_of
                       (str "KEY") (str "data/raw") Fixture.w_ok_prev))))
  = Some [Byte.x01].
Proof.
  apply (get_listed_corp_codes_frame Fixture.unzip_one Fixture.parse_root5 Fixture.csv_of
           (str "KEY") (str "data/raw") Fixture.w_ok_prev
           (fst (get_listed_corp_codes Fixture.unzip_one Fixture.parse_root5 Fixture.csv_of
                   (str "KEY") (str "data/raw") Fixture.w_ok_prev))).
  - apply surjective_pairing.
  - vm_compute. intros [H|[H|[H|[]]]]; discriminate H.
Defined.

Lemma corp_row_id_columns c : has_id_columns (corp_row c) = true.
Proof. reflexivity. Qed.

Lemma expected_listed_codes_id_columns unzip xml_parse resp :
  forallb has_id_columns (expected_listed_codes unzip xml_parse resp) = true.
Proof.
  unfold expected_listed_codes.
  destruct resp as [e|status chunks err]; [reflexivity|].
  destruct ((400 <=? status)%Z && (status <? 600)%Z); [reflexivity|].
  destruct (unzip (List.concat chunks)) as [members|]; [|reflexivity].
  destruct (member_lookup (str "CORPCODE.xml") members) as [[content|]|]; try reflexivity.
  destruct (xml_parse content) as [root|]; [|reflexivity].
  unfold collect_listed. rewrite collect_listed_fold. cbn [app].
  induction (filter is_listed (findall root (str "list"))) as [|c l IH]; [reflexivity|].
  cbn [map forallb]. rewrite corp_row_id_columns, IH. reflexivity.
Qed.

(** The fetcher's table is a valid input of the enricher: each of its
    rows has the [corp_code] and [corp_name] columns the enricher reads
    outside its [try], so on that table the enricher never raises
    [KeyError]; the only exceptions it can raise are the file-system
    errors of [os.makedirs] when it saves. *)
Theorem get_listed_corp_codes_feeds_enricher unzip xml_parse to_csv api out w d w1 dart out2 :
  get_listed_corp_codes unzip xml_parse to_csv api out w = (Ret d, w1) ->
  forallb has_id_columns d = true /\
  (forall w2 e w3, get_kospi_company_info to_csv dart d out2 w2 = (Raise e, w3) -> fs_error e).
Proof.
  intros H. apply get_listed_corp_codes_ret in H. subst d.
  pose proof (expected_listed_codes_id_columns unzip xml_parse (http w (corp_code_url api))) as Hid.
  split; [exact Hid|].
  intros w2 e w3 Hk. unfold get_kospi_company_info in Hk.
  rewrite (bind_ret _ _ _ _ _ (print_spec _ _)) in Hk.
  rewrite (bind_ret _ _ _ _ _ (enrich_loop_spec dart _ Hid _ _)) in Hk.
  apply bind_raise_inv in Hk as [Hs | ([] & w4 & _ & Hk)].
  - exact (raises_only_save_df_to_csv _ _ _ _ _ _ _ Hs).
  - rewrite (bind_ret _ _ _ _ _ (print_spec _ _)) in Hk. discriminate.
Qed.

Lemma get_listed_corp_codes_feeds_enricher_witness :
  forallb has_id_columns (collect_listed Fixture.root5) = true.
Proof.
  refine (proj1 (get_listed_corp_codes_feeds_enricher Fixture.unzip_one Fixture.parse_root5 Fixture.csv_of
                   (str "KEY") (str "data/raw") Fixture.w_ok (collect_listed Fixture.root5) _
                   Fixture.dart5 (str "data/raw") _)).
  vm_compute. reflexivity.
Defined.

(** An error in the body stream after a successful status leaves the
    fetcher: [response.iter_content] runs outside the [try] that guards
    [requests.get], so its [RequestException] propagates (unless a
    file-system error came first). *)
Theorem get_listed_corp_codes_stream_error unzip xml_parse to_csv api out w status chunks r :
  http w (corp_code_url api) = Resp status chunks (Some r) ->
  (400 <=? status)%Z && (status <? 600)%Z = false ->
  exists e w', get_listed_corp_codes unzip xml_parse to_csv api out w = (Raise e, w') /\
    (e = RequestException r \/ fs_error e).
Proof.
  intros Hh Hs. unfold get_listed_corp_codes.
  run_with (print_spec MFetchingCodes w).
  match goal with
  | |- context [bind ?m ?f ?w1] => run_with (request_block_ok _ w1 _ _ _ Hh Hs)
  end.
  run_fs (makedirs (path_join out (str "dart_corp_data"))) (raises_only_makedirs (path_join out (str "dart_corp_data"))).
  run_fs (open_wb (path_join (path_join out (str "dart_corp_data")) (str "CORPCODE.zip"))) (raises_only_open_wb (path_join (path_join out (str "dart_corp_data")) (str "CORPCODE.zip"))).
  cbv [iter_content_into].
  match goal with
  | |- context [bind (bind (write_chunks ?p ?cs) ?g) ?f ?w4] =>
      destruct (write_chunks_ret p cs w4) as [w5 Hw];
      assert (Hb : bind (write_chunks p cs) g w4 = (Raise (RequestException r), w5))
        by (rewrite (bind_ret _ _ _ _ _ Hw); reflexivity);
      rewrite (bind_raise _ f w4 _ _ Hb)
  end.
  eexists _, _; split; [reflexivity | left; reflexivity].
Qed.

Lemma get_listed_corp_codes_stream_error_witness :
  exists e w', get_listed_corp_codes Fixture.unzip_one Fixture.parse_root5 Fixture.csv_of
                 (str "KEY") (str "data/raw") Fixture.w_broken = (Raise e, w') /\
    (e = RequestException ChunkedEncodingError \/ fs_error e).
Proof.
  apply (get_listed_corp_codes_stream_error Fixture.unzip_one Fixture.parse_root5 Fixture.csv_of
           (str "KEY") (str "data/raw") Fixture.w_broken 200 [[Byte.x50]] ChunkedEncodingError);
    reflexivity.
Defined.

(** An archive without a [CORPCODE.xml] member makes [z.extract] raise
    [KeyError], which [except zipfile.BadZipFile] does not catch: the
    fetcher raises it (unless a file-system error came first) instead of
    returning an empty frame. *)
Theorem get_listed_corp_codes_missing_member unzip xml_parse to_csv api out w status chunks members :
  http w (corp_code_url api) = Resp status chunks None ->
  (400 <=? status)%Z && (status <? 600)%Z = false ->
  unzip (List.concat chunks) = Some members ->
  member_lookup (str "CORPCODE.xml") members = None ->
  exists e w', get_listed_corp_codes unzip xml_parse to_csv api out w = (Raise e, w') /\
    (e = KeyError (str "CORPCODE.xml") \/ fs_error e).
Proof.
  intros Hh Hs Hz Hm. unfold get_listed_corp_codes.
  run_with (print_spec MFetchingCodes w).
  match goal with
  | |- context [bind ?m ?f ?w1] => run_with (request_block_ok _ w1 _ _ _ Hh Hs)
  end.
  run_fs (makedirs (path_join out (str "dart_corp_data")))
         (raises_only_makedirs (path_join out (str "dart_corp_data"))).
  match goal with
  | |- context [bind (open_wb ?zp) ?f ?w0] =>
      destruct (open_wb zp w0) as [[[]|e] w1] eqn:E1;
      [ destruct (open_wb_ret _ _ _ _ E1) as [Hf _]; run_with E1
      | run_with E1; exists e, w1; split; [reflexivity | right; exact (raises_only_open_wb _ _ _ _ E1)] ]
  end.
  cbv [iter_content_into].
  match goal with
  | |- context [bind (bind (write_chunks ?zp ?cs) ?g) ?f w1] =>
      destruct (write_chunks_spec zp cs w1 []) as (w2 & Hw & Hl & _);
      [ rewrite Hf; apply file_lookup_set_same | ];
      assert (Hb : bind (write_chunks zp cs) g w1 = (Ret tt, w2))
        by (rewrite (bind_ret _ _ _ _ _ Hw); reflexivity);
      rewrite (bind_ret _ f w1 _ _ Hb); cbv beta
  end.
  change ([] ++ List.concat chunks) with (List.concat chunks) in Hl.
  match goal with
  | |- context [bind (catch ?m is_bad_zip ?h) ?f w2] =>
      assert (Hc : catch m is_bad_zip h w2 = (Raise (KeyError (str "CORPCODE.xml")), w2))
  end.
  { cbv [catch bind zipfile_open read_file]. rewrite Hl. cbv beta iota zeta.
    rewrite Hz. cbv [ret zip_extract]. cbv beta iota zeta. rewrite Hm. reflexivity. }
  rewrite (bind_raise _ _ _ _ _ Hc).
  eexists _, _; split; [reflexivity | left; reflexivity].
Qed.

Lemma get_listed_corp_codes_missing_member_witness :
  exists e w', get_listed_corp_codes Fixture.unzip_other Fixture.parse_root5 Fixture.csv_of
                 (str "KEY") (str "data/raw") Fixture.w_ok = (Raise e, w') /\
    (e = KeyError (str "CORPCODE.xml") \/ fs_error e).
Proof.
  apply (get_listed_corp_codes_missing_member Fixture.unzip_other Fixture.parse_root5 Fixture.csv_of
           (str "KEY") (str "data/raw") Fixture.w_ok 200 [[Byte.x50]; [Byte.x4b]]
           [(str "other.xml", Some [Byte.x50; Byte.x4b])]);
    vm_compute; reflexivity.
Defined.

Lemma pystr_eqb_false a b : pystr_eqb a b = false -> a <> b.
Proof. intros H ->. rewrite pystr_eqb_refl in H. discriminate. Qed.

Lemma env_get_set env k k' v :
  env_get (env_set k' v env) k = if pystr_eqb k k' then Some v else env_get env k.
Proof.
  induction env as [|[k2 v2] env IH]; simpl; [reflexivity|].
  destruct (pystr_eqb k' k2) eqn:E2; simpl.
  - apply pystr_eqb_eq in E2; subst k2.
    destruct (pystr_eqb k k'); reflexivity.
  - rewrite IH. destruct (pystr_eqb k k2) eqn:E; [|reflexivity].
    apply pystr_eqb_eq in E; subst k2.
    destruct (pystr_eqb k k') eqn:E'; [|reflexivity].
    apply pystr_eqb_eq in E'; subst k'. rewrite pystr_eqb_refl in E2; discriminate.
Qed.

(** Running the loop of [load_dotenv()] over entries [d]: a variable keeps
    its value when it is set, and takes its first entry in [d] otherwise. *)
Lemma env_get_load_loop d : forall env k,
  env_get (fold_left (fun env kv => match env_get env (fst kv) with
                                    | Some _ => env
                                    | None => env_set (fst kv) (snd kv) env
                                    end) d env) k
  = match env_get env k with Some v => Some v | None => env_get d k end.
Proof.
  induction d as [|[k' v'] d IH]; intros env k; simpl.
  - destruct (env_get env k); reflexivity.
  - rewrite IH. destruct (env_get env k') eqn:Ek'.
    + destruct (env_get env k) eqn:Ek; [reflexivity|].
      destruct (pystr_eqb k k') eqn:E; [|reflexivity].
      apply pystr_eqb_eq in E; subst k'. congruence.
    + rewrite env_get_set. destruct (pystr_eqb k k') eqn:E; [|reflexivity].
      apply pystr_eqb_eq in E; subst k'. rewrite Ek'. reflexivity.
Qed.

Lemma env_get_load_dotenv lines env k :
  env_get (load_dotenv lines env) k = key_in_effect lines env k.
Proof. unfold load_dotenv, key_in_effect. apply env_get_load_loop. Qed.

(** Importing the module: [load_dotenv()] leaves every variable of
    [os.environ] with its value when it was set, and with the [.env]
    file's value otherwise, also when the import then raises. With no
    usable [OPENDART_API_KEY] in effect (unset, or empty) the import
    raises [ValueError] without touching a file or printing; otherwise it
    either fails with a file-system error from [os.makedirs], or ends
    with [data/raw] a directory and [API_KEY] the value in effect. *)
Theorem data_loader_module_import lines env w :
  (forall k, env_get (fst (data_loader_module lines env)) k = key_in_effect lines env k) /\
  (pyval_truthy (key_in_effect lines env (str "OPENDART_API_KEY")) = false ->
   snd (data_loader_module lines env) w = (Raise (ValueError api_key_missing), w)) /\
  (pyval_truthy (key_in_effect lines env (str "OPENDART_API_KEY")) = true ->
   forall o w', snd (data_loader_module lines env) w = (o, w') ->
   (o = Ret (key_in_effect lines env (str "OPENDART_API_KEY")) /\ isdir (fs w') BASE_DATA_DIR = true) \/
   (exists e, o = Raise e /\ fs_error e)).
Proof.
  unfold data_loader_module. cbn [fst snd]. rewrite env_get_load_dotenv. split; [|split].
  - intros k. apply env_get_load_dotenv.
  - intros Hk. rewrite Hk. reflexivity.
  - intros Hk o w' H. rewrite Hk in H. cbv beta iota zeta delta [negb] in H.
    destruct (makedirs BASE_DATA_DIR w) as [[[]|e] w1] eqn:E.
    + rewrite (bind_ret _ _ _ _ _ E) in H. injection H as <- <-. left. split; [reflexivity|].
      apply (makedirs_ret_dir BASE_DATA_DIR w w1); [vm_compute; discriminate | exact E].
    + rewrite (bind_raise _ _ _ _ _ E) in H. injection H as <- <-. right.
      exists e. split; [reflexivity | exact (raises_only_makedirs _ _ _ _ E)].
Qed.

(** The environment's empty value takes precedence over the [.env]
    file's value, so the import raises, and [os.environ] has gained the
    file's other variable. With the key only in the file, [data/raw]
    exists after the import. *)
Lemma data_loader_module_import_witness :
  env_get (fst (data_loader_module [(str "OPENDART_API_KEY", str "abc"); (str "OTHER", str "1")]
                                   [(str "OPENDART_API_KEY", [])])) (str "OTHER") = Some (str "1") /\
  pyval_truthy (key_in_effect [(str "OPENDART_API_KEY", str "abc"); (str "OTHER", str "1")]
                  [(str "OPENDART_API_KEY", [])] (str "OPENDART_API_KEY")) = false /\
  snd (data_loader_module [(str "OPENDART_API_KEY", str "abc"); (str "OTHER", str "1")]
                          [(str "OPENDART_API_KEY", [])]) Fixture.w0
  = (Raise (ValueError api_key_missing), Fixture.w0) /\
  pyval_truthy (key_in_effect [(str "OPENDART_API_KEY", str "abc")] [] (str "OPENDART_API_KEY")) = true /\
  (fst (snd (data_loader_module [(str "OPENDART_API_KEY", str "abc")] []) Fixture.w0)
     = Ret (key_in_effect [(str "OPENDART_API_KEY", str "abc")] [] (str "OPENDART_API_KEY")) /\
   isdir (fs (snd (snd (data_loader_module [(str "OPENDART_API_KEY", str "abc")] []) Fixture.w0)))
     BASE_DATA_DIR = true \/
   exists e, fst (snd (data_loader_module [(str "OPENDART_API_KEY", str "abc")] []) Fixture.w0) = Raise e
             /\ fs_error e).
Proof.
  split.
  { rewrite (proj1 (data_loader_module_import [(str "OPENDART_API_KEY", str "abc"); (str "OTHER", str "1")]
                      [(str "OPENDART_API_KEY", [])] Fixture.w0)).
    vm_compute; reflexivity. }
  split; [vm_compute; reflexivity|]. split.
  - apply (proj1 (proj2 (data_loader_module_import [(str "OPENDART_API_KEY", str "abc"); (str "OTHER", str "1")]
                           [(str "OPENDART_API_KEY", [])] Fixture.w0))).
    vm_compute; reflexivity.
  - split; [vm_compute; reflexivity|].
    apply (proj2 (proj2 (data_loader_module_import [(str "OPENDART_API_KEY", str "abc")] [] Fixture.w0))).
    + vm_compute; reflexivity.
    + vm_compute. reflexivity.
Defined.
